(** * Hajj-Auth-System: the boarding / trip workflow engine

    A shallow embedding of [logic/user_workflow.py],
    [logic/user_workflow_helpers.py], [logic/workflow_phase.py], the parts of
    [hardware/fingerprint_adafruit.py] and [hardware/camera_manager.py] the
    engine calls, and the PIN scene and scene manager of
    [ui/pyside6_scenes.py].

    Conventions of the embedding:
    - Python [int] is [Z]; [str] is [string]; [None]-able values are [option].
    - A Python call that may raise is a computation in [exc] (pure helpers) or
      in the state-and-exception monad [St] (methods that mutate objects).
      A raised exception keeps the mutations made before it, as in Python.
    - Hardware and storage are oracles: what the fingerprint sensor, the card
      reader, the clock and the database answer during one engine entry is
      the [Env] argument of that entry; the camera is an object of the
      engine whose readings are indexed by the number of the capture.
    - [QTimer.singleShot] closures are defunctionalised into [Callback]; the
      pending ones are the [timers] queue, run by [fire].
    - Writing to the log files ([logging], [SystemLogger]) is not modelled:
      log calls neither change the engine nor raise. *)

From Stdlib Require Import ZArith List String Ascii Bool Lia.
From Stdlib Require Import DecimalString.
Import ListNotations.
Open Scope string_scope.
Open Scope Z_scope.

Set Implicit Arguments.

(* ------------------------------------------------------------------ *)
(** ** Exceptions and the two monads *)

Inductive PyExn : Type :=
| AttributeError (what : string)
| TypeError (what : string)
| ValueError (what : string)
| RuntimeError (what : string).

(** [str(e)] *)
Definition exn_str (e : PyExn) : string :=
  match e with
  | AttributeError m | TypeError m | ValueError m | RuntimeError m => m
  end.

(** A pure call: a value or a raised exception. *)
Inductive exc (A : Type) : Type :=
| Val (a : A)
| Raise (e : PyExn).
Arguments Val {A} a.
Arguments Raise {A} e.

Definition exc_bind {A B} (c : exc A) (k : A -> exc B) : exc B :=
  match c with
  | Val a => k a
  | Raise e => Raise e
  end.

(** [try: c  except Exception as e: h e] on a pure call. *)
Definition exc_try {A} (c : exc A) (h : PyExn -> exc A) : exc A :=
  match c with
  | Val a => Val a
  | Raise e => h e
  end.

Notation "x <~ c ;; k" := (exc_bind c (fun x => k))
  (at level 61, c at next level, right associativity).

Section StateAndExceptions.
Variable S : Type.

(** The result of running a method on the object state [S]. *)
Inductive Res (A : Type) : Type :=
| Ret (a : A) (s : S)
| Exc (e : PyExn) (s : S).
Arguments Ret {A} a s.
Arguments Exc {A} e s.

Definition St (A : Type) : Type := S -> Res A.

Definition ret {A} (a : A) : St A := fun s => Ret a s.

Definition bind {A B} (c : St A) (k : A -> St B) : St B :=
  fun s => match c s with
           | Ret a s' => k a s'
           | Exc e s' => Exc e s'
           end.

Definition raise {A} (e : PyExn) : St A := fun s => Exc e s.

Definition get : St S := fun s => Ret s s.

Definition modify (f : S -> S) : St unit := fun s => Ret tt (f s).

(** [try: c  except Exception as e: h e]; the handler runs on the state
    the body had reached when it raised. *)
Definition try_except {A} (c : St A) (h : PyExn -> St A) : St A :=
  fun s => match c s with
           | Ret a s' => Ret a s'
           | Exc e s' => h e s'
           end.

Definition lift_exc {A} (c : exc A) : St A :=
  match c with
  | Val a => ret a
  | Raise e => raise e
  end.

(** The state a run ends in, whether it returned or raised. *)
Definition final {A} (r : Res A) : S :=
  match r with
  | Ret _ s => s
  | Exc _ s => s
  end.

Definition returned {A} (r : Res A) : bool :=
  match r with
  | Ret _ _ => true
  | Exc _ _ => false
  end.
End StateAndExceptions.

Arguments Ret {S A} a s.
Arguments Exc {S A} e s.
Arguments ret {S A} a _.
Arguments raise {S A} e _.
Arguments get {S} _.
Arguments modify {S} f _.

Notation "x <- c ;; k" := (bind c (fun x => k))
  (at level 61, c at next level, right associativity).
Notation "c ;;; k" := (bind c (fun _ => k))
  (at level 61, right associativity).

(* ------------------------------------------------------------------ *)
(** ** Python built-ins used by the engine *)

(** [str(n)] for an [int] of at most 4300 digits, the numbers the engine
    formats: head counts and fingerprint locations. *)
Definition str_of_int (z : Z) : string := NilZero.string_of_int (Z.to_int z).

Definition is_space (c : ascii) : bool :=
  let n := nat_of_ascii c in
  (Nat.eqb n 32 || (Nat.leb 9 n && Nat.leb n 13) || (Nat.leb 28 n && Nat.leb n 31))%bool.

Definition digit_of (c : ascii) : option Z :=
  let n := nat_of_ascii c in
  if (Nat.leb 48 n && Nat.leb n 57)%bool then Some (Z.of_nat n - 48) else None.

Fixpoint lstrip (l : list ascii) : list ascii :=
  match l with
  | c :: l' => if is_space c then lstrip l' else l
  | [] => []
  end.

Definition strip (l : list ascii) : list ascii := rev (lstrip (rev (lstrip l))).

(** Decimal digits, single underscores allowed between two digits. *)
Fixpoint digits_acc (prev_digit : bool) (acc : Z) (l : list ascii) : option Z :=
  match l with
  | [] => if prev_digit then Some acc else None
  | c :: l' =>
      match digit_of c with
      | Some d => digits_acc true (10 * acc + d) l'
      | None =>
          if (Ascii.eqb c "_" && prev_digit)%bool
          then digits_acc false acc l'
          else None
      end
  end.

(** [sys.get_int_max_str_digits()], at its default. *)
Definition int_max_str_digits : Z := 4300.

Definition is_digit (c : ascii) : bool :=
  match digit_of c with Some _ => true | None => false end.

(** The digits after the sign: more than [int_max_str_digits] of them are
    refused, underscores not counted. *)
Definition digits (l : list ascii) : option Z :=
  if int_max_str_digits <? Z.of_nat (List.length (filter is_digit l)) then None
  else digits_acc false 0 l.

(** [int(s)] for a [str] of ASCII characters, base 10: surrounding white
    space, an optional sign, digits.  [None] stands for [ValueError].  The
    digits and white space of other scripts, which [int()] also accepts,
    are not characters of [string]. *)
Definition int_of_str (s : string) : option Z :=
  match strip (list_ascii_of_string s) with
  | "-"%char :: l => option_map Z.opp (digits l)
  | "+"%char :: l => digits l
  | l => digits l
  end.

(** The JSON values a record's [fingerprint_data] holds. *)
Inductive JVal : Type :=
| JNull
| JNum (z : Z)
| JStr (s : string).

Definition JObject : Type := list (string * JVal).

(** [d.get(key)]: [None] when the key is absent. *)
Fixpoint dict_get (key : string) (d : JObject) : JVal :=
  match d with
  | [] => JNull
  | (k, v) :: d' => if String.eqb k key then v else dict_get key d'
  end.

(** [int(v)] *)
Definition py_int (v : JVal) : exc Z :=
  match v with
  | JNull => Raise (TypeError "int() argument must be a string or a number, not NoneType")
  | JNum z => Val z
  | JStr s =>
      match int_of_str s with
      | Some z => Val z
      | None => Raise (ValueError "invalid literal for int() with base 10")
      end
  end.

(** [max(counts)] on a tuple of three. *)
Definition max3 (counts : Z * Z * Z) : Z :=
  let '(a, b, c) := counts in Z.max (Z.max a b) c.

(* ------------------------------------------------------------------ *)
(** ** db/hajj_db.py: the passenger registry *)

(** One row of [hajj_records] after [_convert_record]: [fingerprint_data]
    is [None] (SQL NULL) or the decoded JSON object. *)
Record HajjRecord : Type := {
  hajj_id : string;
  name : option string;
  fingerprint_data : option JObject
}.

(** Truth value of [record.get('fingerprint_data')]: [None] and the empty
    dict are false. *)
Definition fingerprint_data_truthy (r : HajjRecord) : option JObject :=
  match fingerprint_data r with
  | Some (entry :: rest) => Some (entry :: rest)
  | _ => None
  end.

(* ------------------------------------------------------------------ *)
(** ** hardware/fingerprint_adafruit.py *)

(** [adafruit_fingerprint.OK] and [adafruit_fingerprint.NOFINGER] *)
Definition OK : Z := 0.
Definition NOFINGER : Z := 2.

(** What the sensor answers during one verification: the status codes of
    the successive [get_image] polls that fit in the 30 s window (a poll
    may raise when the serial link fails), and the status codes and
    registers of the other commands. *)
Record Adafruit_Fingerprint : Type := {
  get_image : list (exc Z);
  image_2_tz : Z;
  load_model : Z -> Z;
  compare_templates : Z;
  finger_search : Z;
  finger_id : Z;
  finger_confidence : Z
}.

(** [FingerprintManager.wait_for_finger]: the loop over [get_image]; the
    polls running out is the timeout. *)
Fixpoint wait_for_finger (polls : list (exc Z)) : exc bool :=
  match polls with
  | [] => Val false
  | Raise e :: _ => Raise e
  | Val result :: rest =>
      if result =? OK then Val true
      else if result =? NOFINGER then wait_for_finger rest
      else Val false
  end.

(** The dict [check_specific_finger] returns on a match. *)
Record FingerMatch : Type := {
  matched : bool;
  template_id : Z;
  confidence : Z
}.

(** [FingerprintManager.check_specific_finger]: [None] unless the placed
    finger compares equal to the template stored at [template_id]. *)
Definition check_specific_finger (finger : Adafruit_Fingerprint) (template_id : Z)
  : exc (option FingerMatch) :=
  placed <~ wait_for_finger (get_image finger) ;;
  if negb placed then Val None
  else if negb (image_2_tz finger =? OK) then Val None
  else if negb (load_model finger template_id =? OK) then Val None
  else if negb (compare_templates finger =? OK) then Val None
  else Val (Some {| matched := true;
                    template_id := template_id;
                    confidence := finger_confidence finger |}).

(** [FingerprintManager.search_fingerprint]: [(found, id, confidence)]. *)
Definition search_fingerprint (finger : Adafruit_Fingerprint)
  : exc (bool * option Z * option Z) :=
  placed <~ wait_for_finger (get_image finger) ;;
  if negb placed then Val (false, None, None)
  else if negb (image_2_tz finger =? OK) then Val (false, None, None)
  else if negb (finger_search finger =? OK) then Val (false, None, None)
  else Val (true, Some (finger_id finger), Some (finger_confidence finger)).

(* ------------------------------------------------------------------ *)
(** ** hardware/camera_manager.py *)

(** What one capture gives: [cap.read()] fails, the detector counts
    [person_count] boxes of class 0 above the confidence threshold, the
    detector raises (caught in [detect_people]), or the capture raises. *)
Inductive FrameReading : Type :=
| NoFrame
| Detected (person_count : nat)
| DetectionError
| CaptureError (e : PyExn).

(** The camera object: the readings of its successive captures, how many
    captures were made, and whether [cap] is open. *)
Record CameraManager : Type := {
  cap_read : nat -> FrameReading;
  cap_pos : nat;
  cap_isOpened : bool
}.

Definition camera_advance (c : CameraManager) : CameraManager :=
  {| cap_read := cap_read c; cap_pos := S (cap_pos c); cap_isOpened := cap_isOpened c |}.

Definition camera_release (c : CameraManager) : CameraManager :=
  {| cap_read := cap_read c; cap_pos := cap_pos c; cap_isOpened := false |}.

(** [CameraManager.capture_and_count_heads] *)
Definition capture_and_count_heads : St CameraManager Z :=
  c <- get ;;
  modify camera_advance ;;;
  if negb (cap_isOpened c) then ret 0
  else match cap_read c (cap_pos c) with
       | NoFrame => ret 0
       | Detected person_count => ret (Z.of_nat person_count)
       | DetectionError => ret 0
       | CaptureError e => raise e
       end.

(** [CameraManager.get_three_counts]: the loop [for _ in range(3)]. *)
Definition get_three_counts : St CameraManager (Z * Z * Z) :=
  c1 <- capture_and_count_heads ;;
  c2 <- capture_and_count_heads ;;
  c3 <- capture_and_count_heads ;;
  ret (c1, c2, c3).

(* ------------------------------------------------------------------ *)
(** ** logic/user_workflow_helpers.py *)

(** The encryption manager as the helpers use it: its [decrypt_data]. *)
Record EncryptionKeyManager : Type := {
  decrypt_data : string -> exc string
}.

(** [verify_nfc_data] *)
Definition verify_nfc_data (nfc_data : string)
    (encryption_manager : option EncryptionKeyManager) : exc (option string) :=
  exc_try
    (hajj_id <~ match encryption_manager with
                | Some em => decrypt_data em nfc_data
                | None => Val nfc_data
                end ;;
     Val (Some hajj_id))
    (fun _ => Val None).

Definition min_confidence : Z := 50.

(** The loop of [verify_fingerprint] over the registry. *)
Definition record_matches (fp_id : Z) (hajj_id0 : string) (record : HajjRecord) : bool :=
  match fingerprint_data_truthy record with
  | Some d =>
      match dict_get "location" d with
      | JStr loc => (String.eqb loc (str_of_int fp_id) && String.eqb (hajj_id record) hajj_id0)%bool
      | _ => false
      end
  | None => false
  end.

(** [verify_fingerprint] *)
Definition verify_fingerprint (finger : Adafruit_Fingerprint)
    (get_hajj_records : exc (list HajjRecord)) (hajj_id0 : string) : exc bool :=
  exc_try
    (found_fp <~ search_fingerprint finger ;;
     match found_fp with
     | (true, Some fp_id, Some confidence0) =>
         if min_confidence <=? confidence0
         then (records <~ get_hajj_records ;;
               Val (existsb (record_matches fp_id hajj_id0) records))
         else Val false
     | _ => Val false
     end)
    (fun _ => Val false).

(** The dict [perform_headcount_check] returns. *)
Record HeadcountResult : Type := {
  success : bool;
  message : string;
  scanned_count : Z;
  detected_count : Z
}.

(** Run a camera method on [camera_manager] when there is one. *)
Definition on_camera {A} (c : St CameraManager A) (absent : PyExn)
  : St (option CameraManager) A :=
  fun cm => match cm with
            | None => Exc absent None
            | Some cam => match c cam with
                          | Ret a cam' => Ret a (Some cam')
                          | Exc e cam' => Exc e (Some cam')
                          end
            end.

(** [perform_headcount_check]; the state is the [camera_manager] argument. *)
Definition perform_headcount_check (scanned_count0 : Z)
  : St (option CameraManager) HeadcountResult :=
  camera_manager <- get ;;
  match camera_manager with
  | None =>
      ret {| success := false; message := "No camera manager available";
             scanned_count := scanned_count0; detected_count := 0 |}
  | Some _ =>
      try_except
        (counts <- on_camera get_three_counts (AttributeError "get_three_counts") ;;
         let head_count := max3 counts in
         if head_count =? scanned_count0
         then ret {| success := true; message := "Headcount verified";
                     scanned_count := scanned_count0; detected_count := head_count |}
         else ret {| success := false;
                     message := "Headcount mismatch! Detected: " ++ str_of_int head_count
                                ++ ", Scanned: " ++ str_of_int scanned_count0;
                     scanned_count := scanned_count0; detected_count := head_count |})
        (fun e =>
           ret {| success := false;
                  message := "Error during headcount check: " ++ exn_str e;
                  scanned_count := scanned_count0; detected_count := 0 |})
  end.

(** [handle_door_status] *)
Record DoorResult : Type := {
  door_open : bool;
  should_continue : bool
}.

Definition handle_door_status (door_status0 : bool) : DoorResult :=
  {| door_open := door_status0; should_continue := door_status0 |}.

(** [process_trip_data]; times are seconds on the clock. *)
Record TripData : Type := {
  td_trip_number : Z;
  td_hajj_ids : list string;
  td_passenger_count : Z;
  td_start_time : Z;
  td_end_time : Z;
  td_duration_seconds : Z
}.

Definition process_trip_data (trip_number0 : Z) (hajj_ids : list string)
    (start_time end_time : Z) : TripData :=
  {| td_trip_number := trip_number0;
     td_hajj_ids := hajj_ids;
     td_passenger_count := Z.of_nat (List.length hajj_ids);
     td_start_time := start_time;
     td_end_time := end_time;
     td_duration_seconds := end_time - start_time |}.

(** [cleanup_hardware]: releases an open capture; never raises. *)
Definition cleanup_hardware (camera_manager : option CameraManager)
  : option CameraManager :=
  match camera_manager with
  | Some c => if cap_isOpened c then Some (camera_release c) else Some c
  | None => None
  end.

(* ------------------------------------------------------------------ *)
(** ** The objects of the running kiosk *)

(** [logic/workflow_phase.py] *)
Inductive WorkflowPhase : Type := PHASE_ONE | PHASE_TWO.

(** [ui/pyside6_scenes.py]: [SceneType] and [MessageType] *)
Inductive SceneType : Type :=
| CARD_SCAN | FINGER_SCAN | SUCCESS | WAIT | FINGER_FAILED | CARD_FAILED
| INVALID_FINGERPRINT | ACCESS_DENIED | PIN_ENTRY | TRIP_COMPLETE
| HEADCOUNT_PROCESSING | HEADCOUNT_RESULT.

Inductive MessageType : Type := MSG_INFO | MSG_SUCCESS | MSG_WARNING | MSG_ERROR.

Scheme Equality for WorkflowPhase.
Scheme Equality for SceneType.

(** The closures handed to [QTimer.singleShot]. *)
Inductive Callback : Type :=
| CbSwitchToScene (scene_type : SceneType)
| CbHandleFingerprintVerification (hajj_id0 : string)
| CbProceedWithTrip (headcount_verified : bool)
| CbPerformHeadcount
| CbStartTrip
| CbMonitorTimerStart
| CbPinVerifiedEmit
| CbResetDisplayStyle.

Inductive Sound : Type := SuccessSound | FailSound.

(** The attributes of [UserWorkflow].  [gui_window] tells whether a window
    was passed to [__init__]: only then is [self.scene_manager] an object
    and [scene_changed] connected to [handle_scene_change].
    [monitor_timer] tells whether the 1 s timer is running. *)
Record UserWorkflow : Type := {
  current_phase : WorkflowPhase;
  hajj_id_scans : list string;
  trip_number : Z;
  trip_start_time : option Z;
  trip_end_time : option Z;
  door_status : bool;
  nfc_reader_active : bool;
  camera_manager : option CameraManager;
  encryption_manager : option EncryptionKeyManager;
  gui_window : bool;
  monitor_timer : bool
}.

(** What [SceneManager] and its scenes show. *)
Record SceneManager : Type := {
  current_scene_type : option SceneType;
  success_message : string;
  headcount_result : option (bool * string);
  trip_info : option TripData
}.

Inductive PinStyle : Type := PinNeutral | PinAccepted | PinRejected.

(** [WorkflowPinEntry]; [pin_display] is the number of bullets shown. *)
Record WorkflowPinEntry : Type := {
  current_pin : string;
  correct_pin : string;
  status_label : string;
  pin_display : nat;
  pin_style : PinStyle
}.

(** The whole kiosk: the engine, the window with its scenes, the pending
    one-shot timers, and what was sent to the buzzer and the trip log.
    [window_workflow] tells whether the window's [workflow] is set. *)
Record World : Type := {
  workflow : UserWorkflow;
  scene_manager : SceneManager;
  pin_entry : WorkflowPinEntry;
  window_workflow : bool;
  window_status : string * MessageType;
  timers : list (Z * Callback);
  sounds : list Sound;
  trip_log : list (Z * TripData)
}.

(** *** Attribute assignment *)

Definition set_current_phase (v : WorkflowPhase) (u : UserWorkflow) : UserWorkflow :=
  {| current_phase := v; hajj_id_scans := hajj_id_scans u; trip_number := trip_number u;
     trip_start_time := trip_start_time u; trip_end_time := trip_end_time u;
     door_status := door_status u; nfc_reader_active := nfc_reader_active u;
     camera_manager := camera_manager u; encryption_manager := encryption_manager u;
     gui_window := gui_window u; monitor_timer := monitor_timer u |}.

Definition set_hajj_id_scans (v : list string) (u : UserWorkflow) : UserWorkflow :=
  {| current_phase := current_phase u; hajj_id_scans := v; trip_number := trip_number u;
     trip_start_time := trip_start_time u; trip_end_time := trip_end_time u;
     door_status := door_status u; nfc_reader_active := nfc_reader_active u;
     camera_manager := camera_manager u; encryption_manager := encryption_manager u;
     gui_window := gui_window u; monitor_timer := monitor_timer u |}.

Definition set_trip_number (v : Z) (u : UserWorkflow) : UserWorkflow :=
  {| current_phase := current_phase u; hajj_id_scans := hajj_id_scans u; trip_number := v;
     trip_start_time := trip_start_time u; trip_end_time := trip_end_time u;
     door_status := door_status u; nfc_reader_active := nfc_reader_active u;
     camera_manager := camera_manager u; encryption_manager := encryption_manager u;
     gui_window := gui_window u; monitor_timer := monitor_timer u |}.

Definition set_trip_start_time (v : option Z) (u : UserWorkflow) : UserWorkflow :=
  {| current_phase := current_phase u; hajj_id_scans := hajj_id_scans u; trip_number := trip_number u;
     trip_start_time := v; trip_end_time := trip_end_time u;
     door_status := door_status u; nfc_reader_active := nfc_reader_active u;
     camera_manager := camera_manager u; encryption_manager := encryption_manager u;
     gui_window := gui_window u; monitor_timer := monitor_timer u |}.

Definition set_trip_end_time (v : option Z) (u : UserWorkflow) : UserWorkflow :=
  {| current_phase := current_phase u; hajj_id_scans := hajj_id_scans u; trip_number := trip_number u;
     trip_start_time := trip_start_time u; trip_end_time := v;
     door_status := door_status u; nfc_reader_active := nfc_reader_active u;
     camera_manager := camera_manager u; encryption_manager := encryption_manager u;
     gui_window := gui_window u; monitor_timer := monitor_timer u |}.

Definition set_door_status (v : bool) (u : UserWorkflow) : UserWorkflow :=
  {| current_phase := current_phase u; hajj_id_scans := hajj_id_scans u; trip_number := trip_number u;
     trip_start_time := trip_start_time u; trip_end_time := trip_end_time u;
     door_status := v; nfc_reader_active := nfc_reader_active u;
     camera_manager := camera_manager u; encryption_manager := encryption_manager u;
     gui_window := gui_window u; monitor_timer := monitor_timer u |}.

Definition set_nfc_reader_active (v : bool) (u : UserWorkflow) : UserWorkflow :=
  {| current_phase := current_phase u; hajj_id_scans := hajj_id_scans u; trip_number := trip_number u;
     trip_start_time := trip_start_time u; trip_end_time := trip_end_time u;
     door_status := door_status u; nfc_reader_active := v;
     camera_manager := camera_manager u; encryption_manager := encryption_manager u;
     gui_window := gui_window u; monitor_timer := monitor_timer u |}.

Definition set_camera_manager (v : option CameraManager) (u : UserWorkflow) : UserWorkflow :=
  {| current_phase := current_phase u; hajj_id_scans := hajj_id_scans u; trip_number := trip_number u;
     trip_start_time := trip_start_time u; trip_end_time := trip_end_time u;
     door_status := door_status u; nfc_reader_active := nfc_reader_active u;
     camera_manager := v; encryption_manager := encryption_manager u;
     gui_window := gui_window u; monitor_timer := monitor_timer u |}.

Definition set_monitor_timer (v : bool) (u : UserWorkflow) : UserWorkflow :=
  {| current_phase := current_phase u; hajj_id_scans := hajj_id_scans u; trip_number := trip_number u;
     trip_start_time := trip_start_time u; trip_end_time := trip_end_time u;
     door_status := door_status u; nfc_reader_active := nfc_reader_active u;
     camera_manager := camera_manager u; encryption_manager := encryption_manager u;
     gui_window := gui_window u; monitor_timer := v |}.

Definition set_current_scene_type (v : option SceneType) (m : SceneManager) : SceneManager :=
  {| current_scene_type := v; success_message := success_message m;
     headcount_result := headcount_result m; trip_info := trip_info m |}.

Definition set_success_message (v : string) (m : SceneManager) : SceneManager :=
  {| current_scene_type := current_scene_type m; success_message := v;
     headcount_result := headcount_result m; trip_info := trip_info m |}.

Definition set_headcount_result (v : option (bool * string)) (m : SceneManager) : SceneManager :=
  {| current_scene_type := current_scene_type m; success_message := success_message m;
     headcount_result := v; trip_info := trip_info m |}.

Definition set_trip_info (v : option TripData) (m : SceneManager) : SceneManager :=
  {| current_scene_type := current_scene_type m; success_message := success_message m;
     headcount_result := headcount_result m; trip_info := v |}.

Definition set_workflow (v : UserWorkflow) (w : World) : World :=
  {| workflow := v; scene_manager := scene_manager w; pin_entry := pin_entry w;
     window_workflow := window_workflow w; window_status := window_status w;
     timers := timers w; sounds := sounds w; trip_log := trip_log w |}.

Definition set_scene_manager (v : SceneManager) (w : World) : World :=
  {| workflow := workflow w; scene_manager := v; pin_entry := pin_entry w;
     window_workflow := window_workflow w; window_status := window_status w;
     timers := timers w; sounds := sounds w; trip_log := trip_log w |}.

Definition set_pin_entry (v : WorkflowPinEntry) (w : World) : World :=
  {| workflow := workflow w; scene_manager := scene_manager w; pin_entry := v;
     window_workflow := window_workflow w; window_status := window_status w;
     timers := timers w; sounds := sounds w; trip_log := trip_log w |}.

Definition set_window_status (v : string * MessageType) (w : World) : World :=
  {| workflow := workflow w; scene_manager := scene_manager w; pin_entry := pin_entry w;
     window_workflow := window_workflow w; window_status := v;
     timers := timers w; sounds := sounds w; trip_log := trip_log w |}.

Definition set_timers (v : list (Z * Callback)) (w : World) : World :=
  {| workflow := workflow w; scene_manager := scene_manager w; pin_entry := pin_entry w;
     window_workflow := window_workflow w; window_status := window_status w;
     timers := v; sounds := sounds w; trip_log := trip_log w |}.

Definition set_sounds (v : list Sound) (w : World) : World :=
  {| workflow := workflow w; scene_manager := scene_manager w; pin_entry := pin_entry w;
     window_workflow := window_workflow w; window_status := window_status w;
     timers := timers w; sounds := v; trip_log := trip_log w |}.

Definition set_trip_log (v : list (Z * TripData)) (w : World) : World :=
  {| workflow := workflow w; scene_manager := scene_manager w; pin_entry := pin_entry w;
     window_workflow := window_workflow w; window_status := window_status w;
     timers := timers w; sounds := sounds w; trip_log := v |}.

Definition M : Type -> Type := St World.

Definition on_workflow (f : UserWorkflow -> UserWorkflow) : M unit :=
  modify (fun w => set_workflow (f (workflow w)) w).

Definition on_scenes (f : SceneManager -> SceneManager) : M unit :=
  modify (fun w => set_scene_manager (f (scene_manager w)) w).

Definition on_pin_entry (f : WorkflowPinEntry -> WorkflowPinEntry) : M unit :=
  modify (fun w => set_pin_entry (f (pin_entry w)) w).

(** [QTimer.singleShot(ms, callback)] *)
Definition singleShot (ms : Z) (callback : Callback) : M unit :=
  modify (fun w => set_timers (timers w ++ [(ms, callback)]) w).

(** [SoundManager.play_success] and [play_fail]: they catch their own
    exceptions. *)
Definition play_success : M unit :=
  modify (fun w => set_sounds (sounds w ++ [SuccessSound]) w).

Definition play_fail : M unit :=
  modify (fun w => set_sounds (sounds w ++ [FailSound]) w).

(** What the hardware, the registry and the clock answer during one entry
    into the engine.  [now] is the first reading of
    [datetime.datetime.now()] in that entry and [now_again] the second
    one, which only [end_trip] takes. *)
Record Env : Type := {
  get_hajj_records : exc (list HajjRecord);
  finger : Adafruit_Fingerprint;
  read_nfc : option string;
  now : Z;
  now_again : Z
}.

(* ------------------------------------------------------------------ *)
(** ** ui/pyside6_scenes.py: [SceneManager] *)

(** The keys of [SceneManager.scenes] after [initialize_scenes]. *)
Definition scenes : list SceneType :=
  [PIN_ENTRY; HEADCOUNT_PROCESSING; HEADCOUNT_RESULT; TRIP_COMPLETE;
   CARD_SCAN; FINGER_SCAN; SUCCESS; WAIT; FINGER_FAILED; CARD_FAILED;
   INVALID_FINGERPRINT; ACCESS_DENIED].

(** [UserWorkflow.handle_scene_change], the slot of [scene_changed]. *)
Definition handle_scene_change (scene_type : SceneType) : M unit :=
  match scene_type with
  | CARD_SCAN => on_workflow (set_nfc_reader_active true)
  | FINGER_SCAN => on_workflow (set_nfc_reader_active false)
  | _ => ret tt
  end.

(** [SceneManager.switch_to_scene]; emitting [scene_changed] runs the
    engine's slot when it is connected. *)
Definition switch_to_scene (scene_type : SceneType) : M unit :=
  if existsb (SceneType_beq scene_type) scenes then
    on_scenes (set_current_scene_type (Some scene_type)) ;;;
    w <- get ;;
    if gui_window (workflow w) then handle_scene_change scene_type else ret tt
  else ret tt.

(** Reaching an attribute of [self.scene_manager] from the engine: an
    [AttributeError] when the engine was built without a window. *)
Definition self_scene_manager : M unit :=
  w <- get ;;
  if gui_window (workflow w) then ret tt
  else raise (AttributeError "'NoneType' object has no attribute of SceneManager").

(** [self.scene_manager.switch_to_scene(scene_type)] *)
Definition self_switch_to_scene (scene_type : SceneType) : M unit :=
  self_scene_manager ;;; switch_to_scene scene_type.

(** [self.gui_window.show_message(message, message_type)] *)
Definition gui_show_message (text : string) (message_type : MessageType) : M unit :=
  w <- get ;;
  if gui_window (workflow w) then modify (set_window_status (text, message_type))
  else raise (AttributeError "'NoneType' object has no attribute 'show_message'").

(* ------------------------------------------------------------------ *)
(** ** logic/user_workflow.py: [UserWorkflow] *)

Definition in_scans (hajj_id0 : string) (scans : list string) : bool :=
  existsb (String.eqb hajj_id0) scans.

(** [start_phase_one] *)
Definition start_phase_one : M unit :=
  on_workflow (set_current_phase PHASE_ONE) ;;;
  on_workflow (set_nfc_reader_active true) ;;;
  on_workflow (set_monitor_timer true).

(** [__init__]: the state of a fresh engine. *)
Definition init_workflow (camera : option CameraManager)
    (encryption : option EncryptionKeyManager) (gui : bool) : UserWorkflow :=
  {| current_phase := PHASE_ONE; hajj_id_scans := []; trip_number := 1;
     trip_start_time := None; trip_end_time := None; door_status := true;
     nfc_reader_active := true; camera_manager := camera;
     encryption_manager := encryption; gui_window := gui; monitor_timer := false |}.

Definition init_world (camera : option CameraManager)
    (encryption : option EncryptionKeyManager) (gui window_knows_workflow : bool) : World :=
  {| workflow := init_workflow camera encryption gui;
     scene_manager := {| current_scene_type := None;
                         success_message := "Successful, Please be seated";
                         headcount_result := None; trip_info := None |};
     pin_entry := {| current_pin := ""; correct_pin := "1234"; status_label := "";
                     pin_display := 0%nat; pin_style := PinNeutral |};
     window_workflow := window_knows_workflow;
     window_status := ("System Ready", MSG_INFO);
     timers := []; sounds := []; trip_log := [] |}.

Definition UserWorkflow_init (camera : option CameraManager)
    (encryption : option EncryptionKeyManager) (gui window_knows_workflow : bool)
  : Res World unit :=
  ((if gui then switch_to_scene CARD_SCAN else ret tt) ;;;
   start_phase_one) (init_world camera encryption gui window_knows_workflow).

(** The three lines every card rejection of [handle_nfc_detection] runs. *)
Definition card_failed : M unit :=
  self_switch_to_scene CARD_FAILED ;;;
  play_fail ;;;
  singleShot 5000 (CbSwitchToScene CARD_SCAN).

(** Truth value of the [Optional[str]] bound by [:=]. *)
Definition truthy_str (s : option string) : option string :=
  match s with
  | Some "" => None
  | Some s' => Some s'
  | None => None
  end.

(** [handle_nfc_detection] *)
Definition handle_nfc_detection (env : Env) (nfc_data : string) : M unit :=
  w <- get ;;
  if negb (WorkflowPhase_beq (current_phase (workflow w)) PHASE_ONE) then ret tt
  else
    self_switch_to_scene WAIT ;;;
    decoded <- lift_exc (verify_nfc_data nfc_data (encryption_manager (workflow w))) ;;
    match truthy_str decoded with
    | Some hajj_id0 =>
        try_except
          (hajj_records <- lift_exc (get_hajj_records env) ;;
           if negb (existsb (fun record => String.eqb (hajj_id record) hajj_id0) hajj_records)
           then card_failed
           else
             play_success ;;;
             self_switch_to_scene FINGER_SCAN ;;;
             singleShot 2000 (CbHandleFingerprintVerification hajj_id0))
          (fun _ => card_failed)
    | None => card_failed
    end.

(** [str(passenger_name)] inside the welcome f-string. *)
Definition welcome (passenger_name : option string) : string :=
  "Welcome " ++ match passenger_name with Some n => n | None => "None" end
  ++ ", please be seated".

(** The failure lines of [handle_fingerprint_verification]. *)
Definition finger_failed : M unit :=
  self_switch_to_scene FINGER_FAILED ;;;
  play_fail ;;;
  singleShot 3000 (CbSwitchToScene CARD_SCAN) ;;;
  on_workflow (set_nfc_reader_active true).

Definition access_denied : M unit :=
  self_switch_to_scene ACCESS_DENIED ;;;
  play_fail ;;;
  on_workflow (set_nfc_reader_active true).

(** The branch of [handle_fingerprint_verification] taken on a match. *)
Definition admission (hajj_id0 : string) (stored_record : HajjRecord) : M unit :=
  w <- get ;;
  (if negb (in_scans hajj_id0 (hajj_id_scans (workflow w)))
   then on_workflow (fun u => set_hajj_id_scans (hajj_id_scans u ++ [hajj_id0]) u)
   else ret tt) ;;;
  let passenger_name := name stored_record in
  self_scene_manager ;;;
  play_success ;;;
  on_scenes (set_success_message (welcome passenger_name)) ;;;
  self_switch_to_scene SUCCESS ;;;
  singleShot 3000 (CbSwitchToScene CARD_SCAN).

(** [handle_fingerprint_verification] *)
Definition handle_fingerprint_verification (env : Env) (hajj_id0 : string) : M unit :=
  w <- get ;;
  if negb (WorkflowPhase_beq (current_phase (workflow w)) PHASE_ONE) then ret tt
  else
    try_except
      (hajj_records <- lift_exc (get_hajj_records env) ;;
       match find (fun record => String.eqb (hajj_id record) hajj_id0) hajj_records with
       | None => access_denied
       | Some stored_record =>
           match fingerprint_data_truthy stored_record with
           | None => access_denied
           | Some fp =>
               stored_location <- lift_exc (py_int (dict_get "location" fp)) ;;
               result <- lift_exc (check_specific_finger (finger env) stored_location) ;;
               match result with
               | Some r => if matched r then admission hajj_id0 stored_record
                           else finger_failed
               | None => finger_failed
               end
           end
       end)
      (fun _ => finger_failed).

(** [start_phase_two] *)
Definition start_phase_two : M unit :=
  w <- get ;;
  if negb (WorkflowPhase_beq (current_phase (workflow w)) PHASE_TWO) then ret tt
  else
    on_workflow (set_nfc_reader_active false) ;;;
    self_switch_to_scene PIN_ENTRY.

(** [transition_to_phase_two] *)
Definition transition_to_phase_two : M unit :=
  on_workflow (set_monitor_timer false) ;;;
  on_workflow (set_current_phase PHASE_TWO) ;;;
  start_phase_two.

(** Truth value of [nfc.read_nfc(timeout=0.1)]. *)
Definition card_read (env : Env) : option string := truthy_str (read_nfc env).

(** [_monitor_nfc_and_door], the slot of the 1 s monitor timer. *)
Definition _monitor_nfc_and_door (env : Env) : M unit :=
  try_except
    (w <- get ;;
     let door_result := handle_door_status (door_status (workflow w)) in
     if negb (door_open door_result) then transition_to_phase_two
     else if nfc_reader_active (workflow w) then
       match card_read env with
       | Some nfc_data => handle_nfc_detection env nfc_data
       | None => ret tt
       end
     else ret tt)
    (fun e => gui_show_message ("Error: " ++ exn_str e) MSG_ERROR).

(** [proceed_with_trip] *)
Definition proceed_with_trip (headcount_verified : bool) : M unit :=
  if headcount_verified then gui_show_message "Trip started" MSG_SUCCESS
  else gui_show_message "Warning: Headcount mismatch" MSG_WARNING.

(** Run a helper that takes [self.camera_manager] on the engine's camera. *)
Definition with_camera {A} (c : St (option CameraManager) A) : M A :=
  fun w => match c (camera_manager (workflow w)) with
           | Ret a cm => Ret a (set_workflow (set_camera_manager cm (workflow w)) w)
           | Exc e cm => Exc e (set_workflow (set_camera_manager cm (workflow w)) w)
           end.

Definition len (scans : list string) : Z := Z.of_nat (List.length scans).

(** [_perform_headcount] *)
Definition _perform_headcount : M unit :=
  try_except
    (w <- get ;;
     headcount <- with_camera (perform_headcount_check (len (hajj_id_scans (workflow w)))) ;;
     self_scene_manager ;;;
     on_scenes (set_headcount_result
                  (Some (success headcount,
                         "Headcount " ++ (if success headcount then "Verified" else "Mismatch")
                         ++ ": " ++ str_of_int (detected_count headcount)
                         ++ "/" ++ str_of_int (scanned_count headcount)))) ;;;
     self_switch_to_scene HEADCOUNT_RESULT ;;;
     singleShot 5000 (CbProceedWithTrip (success headcount)))
    (fun e =>
       gui_show_message ("Error during headcount check: " ++ exn_str e) MSG_ERROR ;;;
       self_switch_to_scene CARD_SCAN).

(** [start_trip] *)
Definition start_trip (env : Env) : M unit :=
  on_workflow (set_trip_start_time (Some (now env))) ;;;
  self_scene_manager ;;;
  w <- get ;;
  (match current_scene_type (scene_manager w) with
   | Some HEADCOUNT_PROCESSING => ret tt
   | _ => self_switch_to_scene HEADCOUNT_PROCESSING
   end) ;;;
  singleShot 1500 CbPerformHeadcount.

(** [TripCompleteScene.update_trip_info]: formatting the passenger list
    reads the registry once per passenger. *)
Definition update_trip_info (env : Env) (trip_data : TripData) : M unit :=
  (match td_hajj_ids trip_data with
   | [] => ret tt
   | _ :: _ => _ <- lift_exc (get_hajj_records env) ;; ret tt
   end) ;;;
  on_scenes (set_trip_info (Some trip_data)).

(** [end_trip] *)
Definition end_trip (env : Env) : M unit :=
  try_except
    (on_workflow (set_trip_end_time (Some (now env))) ;;;
     w <- get ;;
     let u := workflow w in
     let trip_data :=
       process_trip_data (trip_number u) (hajj_id_scans u)
         (match trip_start_time u with Some t => t | None => now_again env end)
         (now env) in
     modify (fun w => set_trip_log (trip_log w ++ [(trip_number u, trip_data)]) w) ;;;
     on_workflow (fun u => set_camera_manager (cleanup_hardware (camera_manager u)) u) ;;;
     self_switch_to_scene TRIP_COMPLETE ;;;
     update_trip_info env trip_data)
    (fun _ =>
       gui_show_message "Error ending trip" MSG_ERROR ;;;
       start_phase_one).

(** [reset_for_new_trip] *)
Definition reset_for_new_trip : M unit :=
  on_workflow (set_hajj_id_scans []) ;;;
  on_workflow (set_trip_start_time None) ;;;
  on_workflow (set_trip_end_time None) ;;;
  on_workflow (fun u => set_trip_number (trip_number u + 1) u) ;;;
  on_workflow (set_current_phase PHASE_ONE) ;;;
  on_workflow (set_door_status true) ;;;
  on_workflow (set_nfc_reader_active true) ;;;
  self_switch_to_scene CARD_SCAN ;;;
  singleShot 500 CbMonitorTimerStart.

(* ------------------------------------------------------------------ *)
(** ** ui/pyside6_scenes.py: [WorkflowPinEntry] and the PIN signal *)

Definition set_pin (pin : string) (shown : nat) (status : string) (style : PinStyle)
    (p : WorkflowPinEntry) : WorkflowPinEntry :=
  {| current_pin := pin; correct_pin := correct_pin p; status_label := status;
     pin_display := shown; pin_style := style |}.

(** [add_digit] *)
Definition add_digit (digit : string) : M unit :=
  on_pin_entry (fun p =>
    if (String.length (current_pin p) <? 4)%nat
    then let pin := current_pin p ++ digit in
         set_pin pin (String.length pin) "" (pin_style p) p
    else p).

(** [current_pin[:-1]] *)
Fixpoint drop_last (s : string) : string :=
  match s with
  | EmptyString => EmptyString
  | String _ EmptyString => EmptyString
  | String c rest => String c (drop_last rest)
  end.

(** [backspace] *)
Definition backspace : M unit :=
  on_pin_entry (fun p =>
    match current_pin p with
    | EmptyString => p
    | _ => let pin := drop_last (current_pin p) in
           set_pin pin (String.length pin) "" (pin_style p) p
    end).

(** [verify_pin] *)
Definition verify_pin : M unit :=
  w <- get ;;
  let p := pin_entry w in
  match current_pin p with
  | EmptyString =>
      on_pin_entry (set_pin (current_pin p) (pin_display p) "Please enter PIN" (pin_style p))
  | _ =>
      if String.eqb (current_pin p) (correct_pin p) then
        on_pin_entry (set_pin "" (pin_display p) (status_label p) PinAccepted) ;;;
        singleShot 500 CbPinVerifiedEmit
      else
        on_pin_entry (fun p => set_pin (current_pin p) (pin_display p) "Incorrect PIN" PinRejected p) ;;;
        singleShot 1000 CbResetDisplayStyle ;;;
        on_pin_entry (fun p => set_pin "" 0%nat (status_label p) (pin_style p) p)
  end.

(** [reset_display_style] *)
Definition reset_display_style : M unit :=
  on_pin_entry (fun p => set_pin (current_pin p) (pin_display p) "" PinNeutral p).

(** [SceneManager.handle_pin_verified], the slot of [pin_verified]. *)
Definition handle_pin_verified : M unit :=
  w <- get ;;
  if window_workflow w then
    if WorkflowPhase_beq (current_phase (workflow w)) PHASE_TWO then
      switch_to_scene HEADCOUNT_PROCESSING ;;;
      singleShot 1000 CbStartTrip
    else ret tt
  else ret tt.

(** Reaching the engine through [self.parent().parent().workflow] or a
    panel's [self.workflow]. *)
Definition window_workflow_ref (attribute : string) : M unit :=
  w <- get ;;
  if window_workflow w then ret tt
  else raise (AttributeError ("'NoneType' object has no attribute '" ++ attribute ++ "'")).

(** [TripCompleteScene.start_new_trip] *)
Definition start_new_trip : M unit :=
  window_workflow_ref "reset_for_new_trip" ;;; reset_for_new_trip.

(** [UserWorkflow.show_message]: shown only when the engine has a window. *)
Definition show_message (text : string) (message_type : MessageType) : M unit :=
  w <- get ;;
  if gui_window (workflow w) then modify (set_window_status (text, message_type))
  else ret tt.

(** [DevPanel.toggle_door] *)
Definition toggle_door : M unit :=
  window_workflow_ref "door_status" ;;;
  on_workflow (fun u => set_door_status (negb (door_status u)) u) ;;;
  w <- get ;;
  if door_status (workflow w)
  then show_message "Door Status: Open" MSG_INFO
  else show_message "Door Status: Closed" MSG_WARNING.

(** [DevPanel.reset_ui], once confirmed. *)
Definition reset_ui : M unit :=
  window_workflow_ref "current_phase" ;;;
  on_workflow (set_current_phase PHASE_ONE) ;;;
  self_switch_to_scene CARD_SCAN.

(* ------------------------------------------------------------------ *)
(** ** The event loop *)

(** Running a one-shot timer's closure. *)
Definition fire (env : Env) (callback : Callback) : M unit :=
  match callback with
  | CbSwitchToScene scene_type => self_switch_to_scene scene_type
  | CbHandleFingerprintVerification hajj_id0 => handle_fingerprint_verification env hajj_id0
  | CbProceedWithTrip headcount_verified => proceed_with_trip headcount_verified
  | CbPerformHeadcount => _perform_headcount
  | CbStartTrip => start_trip env
  | CbMonitorTimerStart => on_workflow (set_monitor_timer true)
  | CbPinVerifiedEmit => handle_pin_verified
  | CbResetDisplayStyle => reset_display_style
  end.

(** What the Qt event loop can deliver to the kiosk.  [EndTripPressed] is
    the developer panel's button, enabled there when the panel was opened in
    PHASE_TWO; here it is accepted in any phase. *)
Inductive Event : Type :=
| MonitorTimeout
| TimerFired (k : nat)
| DigitPressed (digit : string)
| BackspacePressed
| EnterPressed
| EndTripPressed
| NewTripPressed
| ToggleDoorPressed
| ResetUiConfirmed.

(** The [k]-th pending one-shot timer leaves the queue and runs. *)
Definition timer_fired (env : Env) (k : nat) : M unit :=
  w <- get ;;
  match nth_error (timers w) k with
  | Some (_, callback) =>
      modify (set_timers (firstn k (timers w) ++ skipn (S k) (timers w))) ;;;
      fire env callback
  | None => ret tt
  end.

Definition step (env : Env) (ev : Event) : M unit :=
  match ev with
  | MonitorTimeout =>
      w <- get ;;
      if monitor_timer (workflow w) then _monitor_nfc_and_door env else ret tt
  | TimerFired k => timer_fired env k
  | DigitPressed digit => add_digit digit
  | BackspacePressed => backspace
  | EnterPressed => verify_pin
  | EndTripPressed => window_workflow_ref "end_trip" ;;; end_trip env
  | NewTripPressed => start_new_trip
  | ToggleDoorPressed => toggle_door
  | ResetUiConfirmed => reset_ui
  end.

(** A run: the events delivered, each with what the outside answers. *)
Fixpoint run (evs : list (Env * Event)) (w : World) : World :=
  match evs with
  | [] => w
  | (env, ev) :: rest => run rest (final (step env ev w))
  end.

(* ================================================================== *)
(** * Properties *)

Unset Implicit Arguments.

(** ** Symbolic execution of monadic code *)

Ltac unfold_monad :=
  unfold bind, ret, raise, get, modify, try_except, lift_exc, exc_bind, exc_try in *.

Lemma bind_Ret : forall S A B (c : St S A) (k : A -> St S B) s a s',
  c s = Ret a s' -> bind c k s = k a s'.
Proof. intros S A B c k s a s' H. unfold bind. rewrite H. reflexivity. Qed.

Lemma bind_Exc : forall S A B (c : St S A) (k : A -> St S B) s e s',
  c s = Exc e s' -> bind c k s = Exc e s'.
Proof. intros S A B c k s e s' H. unfold bind. rewrite H. reflexivity. Qed.

Lemma try_except_Ret : forall S A (c : St S A) h s a s',
  c s = Ret a s' -> try_except c h s = Ret a s'.
Proof. intros S A c h s a s' H. unfold try_except. rewrite H. reflexivity. Qed.

Lemma try_except_Exc : forall S A (c : St S A) h s e s',
  c s = Exc e s' -> try_except c h s = h e s'.
Proof. intros S A c h s e s' H. unfold try_except. rewrite H. reflexivity. Qed.

(** ** The helpers *)

(** A camera whose next three captures count [a], [b] and [c] people. *)
Definition camera_counting (a b c : nat) : CameraManager :=
  {| cap_read := fun k => match k with
                          | O => Detected a
                          | S O => Detected b
                          | _ => Detected c
                          end;
     cap_pos := 0; cap_isOpened := true |}.

(** A camera whose capture raises. *)
Definition camera_broken : CameraManager :=
  {| cap_read := fun _ => CaptureError (RuntimeError "cv2.error");
     cap_pos := 0; cap_isOpened := true |}.

Lemma capture_and_count_heads_nonneg : forall cam n cam',
  capture_and_count_heads cam = Ret n cam' -> 0 <= n.
Proof.
  intros cam n cam'. unfold capture_and_count_heads. unfold_monad.
  destruct (cap_isOpened cam); cbn.
  - destruct (cap_read cam (cap_pos cam)); intro H; inversion H; lia.
  - intro H; inversion H; lia.
Qed.

Lemma perform_headcount_check_sampled : forall cam n counts cam',
  get_three_counts cam = Ret counts cam' ->
  perform_headcount_check n (Some cam) =
    Ret {| success := max3 counts =? n;
           message := if max3 counts =? n then "Headcount verified"
                      else "Headcount mismatch! Detected: " ++ str_of_int (max3 counts)
                           ++ ", Scanned: " ++ str_of_int n;
           scanned_count := n; detected_count := max3 counts |} (Some cam').
Proof.
  intros cam n counts cam' H.
  unfold perform_headcount_check, on_camera. unfold_monad.
  rewrite H. destruct (max3 counts =? n); reflexivity.
Qed.

Lemma perform_headcount_check_raised : forall cam n e cam',
  get_three_counts cam = Exc e cam' ->
  perform_headcount_check n (Some cam) =
    Ret {| success := false; message := "Error during headcount check: " ++ exn_str e;
           scanned_count := n; detected_count := 0 |} (Some cam').
Proof.
  intros cam n e cam' H.
  unfold perform_headcount_check, on_camera. unfold_monad.
  rewrite H. reflexivity.
Qed.

(** C2. With a camera whose three samples are [s1], [s2], [s3], the
    headcount check on a scanned count [n] reports
    [detected_count = max(s1, s2, s3)] and [success] exactly when that
    maximum equals [n].  Scenario C (roster of 3, samples 2, 3, 3) and
    scenario D (roster of 1, samples 0, 0, 1) both report a match. *)
Theorem headcount_detects_max_of_three_samples :
  forall (cam cam' : CameraManager) (n s1 s2 s3 : Z),
    get_three_counts cam = Ret (s1, s2, s3) cam' ->
    exists r,
      perform_headcount_check n (Some cam) = Ret r (Some cam')
      /\ detected_count r = Z.max (Z.max s1 s2) s3
      /\ scanned_count r = n
      /\ (success r = true <-> Z.max (Z.max s1 s2) s3 = n)
      /\ (exists r3, perform_headcount_check 3 (Some (camera_counting 2 3 3))
                     = Ret r3 (Some (Nat.iter 3 camera_advance (camera_counting 2 3 3)))
                     /\ detected_count r3 = 3 /\ success r3 = true)
      /\ (exists r1, perform_headcount_check 1 (Some (camera_counting 0 0 1))
                     = Ret r1 (Some (Nat.iter 3 camera_advance (camera_counting 0 0 1)))
                     /\ detected_count r1 = 1 /\ success r1 = true).
Proof.
  intros cam cam' n s1 s2 s3 H.
  eexists. split; [ apply (perform_headcount_check_sampled _ n _ _ H) | ].
  cbn [detected_count scanned_count success max3].
  repeat split.
  - apply Z.eqb_eq.
  - apply Z.eqb_eq.
  - eexists. split; [ reflexivity | split; reflexivity ].
  - eexists. split; [ reflexivity | split; reflexivity ].
Qed.

Lemma headcount_detects_max_of_three_samples_witness :
  get_three_counts (camera_counting 2 3 3)
    = Ret (2, 3, 3) (Nat.iter 3 camera_advance (camera_counting 2 3 3))
  /\ exists r,
      perform_headcount_check 3 (Some (camera_counting 2 3 3))
        = Ret r (Some (Nat.iter 3 camera_advance (camera_counting 2 3 3)))
      /\ detected_count r = 3 /\ success r = true.
Proof.
  split; [ reflexivity | ].
  destruct (headcount_detects_max_of_three_samples
              (camera_counting 2 3 3)
              (Nat.iter 3 camera_advance (camera_counting 2 3 3))
              3 2 3 3 eq_refl) as [r [Hrun [Hd [_ [Hs _]]]]].
  exists r. split; [ exact Hrun | split; [ exact Hd | apply Hs; reflexivity ] ].
Defined.

(** C9. [perform_headcount_check] returns for every camera argument and
    every scanned count, never raising, and the result carries the scanned
    count; with no camera manager, or when sampling raises, the result has
    [success = False] and [detected_count = 0]. *)
Theorem perform_headcount_check_total :
  forall (camera : option CameraManager) (n : Z),
    exists r camera',
      perform_headcount_check n camera = Ret r camera'
      /\ scanned_count r = n
      /\ (camera = None -> success r = false /\ detected_count r = 0)
      /\ (forall cam e cam', camera = Some cam -> get_three_counts cam = Exc e cam' ->
            success r = false /\ detected_count r = 0).
Proof.
  intros [cam|] n.
  - destruct (get_three_counts cam) as [counts cam'|e cam'] eqn:H.
    + eexists. eexists. split; [ apply (perform_headcount_check_sampled _ n _ _ H) | ].
      split; [ reflexivity | split ].
      * discriminate.
      * intros cam0 e cam0' Hc Hx. inversion Hc; subst cam0. congruence.
    + eexists. eexists. split; [ apply (perform_headcount_check_raised _ n _ _ H) | ].
      split; [ reflexivity | split ].
      * discriminate.
      * intros. split; reflexivity.
  - eexists. eexists. split; [ reflexivity | ].
    split; [ reflexivity | split ].
    + intros _. split; reflexivity.
    + discriminate.
Qed.

Lemma perform_headcount_check_total_witness :
  (exists r camera', perform_headcount_check 4 None = Ret r camera'
                     /\ success r = false /\ detected_count r = 0)
  /\ (exists r camera', perform_headcount_check 4 (Some camera_broken) = Ret r camera'
                        /\ success r = false /\ detected_count r = 0).
Proof.
  split.
  - destruct (perform_headcount_check_total None 4) as [r [c [Hrun [_ [Hnone _]]]]].
    exists r, c. split; [ exact Hrun | exact (Hnone eq_refl) ].
  - destruct (perform_headcount_check_total (Some camera_broken) 4)
      as [r [c [Hrun [_ [_ Hraise]]]]].
    exists r, c. split; [ exact Hrun | ].
    apply (Hraise camera_broken (RuntimeError "cv2.error") (camera_advance camera_broken) eq_refl).
    reflexivity.
Defined.

(** ** The engine *)

Ltac unfold_engine :=
  unfold step, timer_fired, fire, _monitor_nfc_and_door, handle_nfc_detection,
    handle_fingerprint_verification, admission, finger_failed, access_denied, card_failed,
    transition_to_phase_two, start_phase_two, start_phase_one, proceed_with_trip,
    _perform_headcount, start_trip, end_trip, update_trip_info, reset_for_new_trip,
    start_new_trip, toggle_door, reset_ui, handle_pin_verified, verify_pin,
    reset_display_style, add_digit, backspace, window_workflow_ref, show_message,
    self_switch_to_scene, self_scene_manager, gui_show_message, switch_to_scene,
    handle_scene_change, singleShot, play_success, play_fail, with_camera,
    on_workflow, on_scenes, on_pin_entry in *.

(** Case analysis on the innermost scrutinee of the goal. *)
Ltac break_match :=
  match goal with
  | |- context [match ?x with _ => _ end] =>
      lazymatch x with
      | context [match _ with _ => _ end] => fail
      | _ => destruct x eqn:?
      end
  end.

Ltac exec :=
  repeat (progress unfold_engine); unfold_monad;
  cbn [final returned workflow scene_manager pin_entry hajj_id_scans].

Ltac exec_cases tac := exec; repeat (break_match; cbn in *; try tac); try tac.

Ltac same := solve [ reflexivity | assumption | symmetry; assumption ].

(** The roster: the identifiers admitted for the current trip. *)
Definition roster (w : World) : list string := hajj_id_scans (workflow w).

Lemma WorkflowPhase_beq_true : forall p q, WorkflowPhase_beq p q = true -> p = q.
Proof. intros [] [] H; (reflexivity || discriminate). Qed.

Lemma not_phase_one_false : forall p,
  negb (WorkflowPhase_beq p PHASE_ONE) = false -> p = PHASE_ONE.
Proof. intros [] H; (reflexivity || discriminate). Qed.

Lemma fingerprint_data_truthy_Some : forall r d,
  fingerprint_data_truthy r = Some d -> fingerprint_data r = Some d.
Proof.
  intros r d. unfold fingerprint_data_truthy.
  destruct (fingerprint_data r) as [[|x l]|]; cbn; congruence.
Qed.

Lemma find_by_hajj_id : forall i recs r,
  find (fun record => String.eqb (hajj_id record) i) recs = Some r ->
  In r recs /\ hajj_id r = i.
Proof.
  intros i recs r H. apply find_some in H. destruct H as [Hin Heq].
  split; [ exact Hin | apply String.eqb_eq; exact Heq ].
Qed.

Lemma in_scans_In : forall i l, in_scans i l = true <-> In i l.
Proof.
  intros i l. unfold in_scans. rewrite existsb_exists. split.
  - intros [x [Hin Heq]]. apply String.eqb_eq in Heq. subst x. exact Hin.
  - intro Hin. exists i. split; [ exact Hin | apply String.eqb_refl ].
Qed.

(** *** Which entries leave the roster alone *)

Lemma roster_handle_nfc_detection : forall env d w,
  roster (final (handle_nfc_detection env d w)) = roster w.
Proof. intros. unfold roster. exec_cases same. Qed.

Lemma roster__monitor_nfc_and_door : forall env w,
  roster (final (_monitor_nfc_and_door env w)) = roster w.
Proof. intros. unfold roster. exec_cases same. Qed.

Lemma roster_self_switch_to_scene : forall s w,
  roster (final (self_switch_to_scene s w)) = roster w.
Proof. intros. unfold roster. destruct s; exec_cases same. Qed.

Lemma roster_proceed_with_trip : forall b w,
  roster (final (proceed_with_trip b w)) = roster w.
Proof. intros. unfold roster. exec_cases same. Qed.

Lemma roster__perform_headcount : forall w,
  roster (final (_perform_headcount w)) = roster w.
Proof. intros. unfold roster. exec_cases same. Qed.

Lemma roster_start_trip : forall env w,
  roster (final (start_trip env w)) = roster w.
Proof. intros. unfold roster. exec_cases same. Qed.

Lemma roster_handle_pin_verified : forall w,
  roster (final (handle_pin_verified w)) = roster w.
Proof. intros. unfold roster. exec_cases same. Qed.

Lemma roster_verify_pin : forall w,
  roster (final (verify_pin w)) = roster w.
Proof. intros. unfold roster. exec_cases same. Qed.

Lemma roster_end_trip : forall env w,
  roster (final (end_trip env w)) = roster w.
Proof. intros. unfold roster. exec_cases same. Qed.

Lemma roster_toggle_door : forall w,
  roster (final (toggle_door w)) = roster w.
Proof. intros. unfold roster. exec_cases same. Qed.

Lemma roster_reset_ui : forall w,
  roster (final (reset_ui w)) = roster w.
Proof. intros. unfold roster. exec_cases same. Qed.

Lemma roster_reset_for_new_trip : forall w,
  roster (final (reset_for_new_trip w)) = [].
Proof. intros. unfold roster. exec_cases same. Qed.

Lemma roster_start_new_trip : forall w,
  roster (final (start_new_trip w)) = roster w \/ roster (final (start_new_trip w)) = [].
Proof.
  intros. unfold roster.
  exec_cases ltac:(first [ left; same | right; same ]).
Qed.

Lemma roster_pin_keys : forall d w,
  roster (final (add_digit d w)) = roster w
  /\ roster (final (backspace w)) = roster w
  /\ roster (final (reset_display_style w)) = roster w.
Proof. intros. unfold roster. repeat split; exec_cases same. Qed.

(** *** Admission *)

(** During this entry the registry holds a record of [i], and the finger on
    the sensor compares equal to the template stored at that record's own
    fingerprint location. *)
Definition verified_against_own_record (env : Env) (i : string) : Prop :=
  exists recs rec fp loc r,
    get_hajj_records env = Val recs
    /\ find (fun record => String.eqb (hajj_id record) i) recs = Some rec
    /\ In rec recs /\ hajj_id rec = i
    /\ fingerprint_data rec = Some fp
    /\ py_int (dict_get "location" fp) = Val loc
    /\ check_specific_finger (finger env) loc = Val (Some r)
    /\ matched r = true.

(** What [handle_fingerprint_verification] does to the roster. *)
Lemma handle_fingerprint_verification_roster : forall env i w,
  roster (final (handle_fingerprint_verification env i w)) = roster w
  \/ (roster (final (handle_fingerprint_verification env i w)) = (roster w ++ [i])%list
      /\ in_scans i (roster w) = false
      /\ current_phase (workflow w) = PHASE_ONE
      /\ verified_against_own_record env i).
Proof.
  intros env i w. unfold roster.
  exec_cases ltac:(left; same).
  all: right; split; [ reflexivity | ].
  all: split; [ apply negb_true_iff; assumption | ].
  all: split; [ apply not_phase_one_false; assumption | ].
  all: match goal with
       | Hf : find _ _ = Some ?h |- _ =>
           destruct (find_by_hajj_id _ _ _ Hf) as [Hin Hid]
       end.
  all: unfold verified_against_own_record.
  all: do 5 eexists; repeat split;
       eauto using fingerprint_data_truthy_Some.
Qed.

Lemma roster_fire : forall env cb w i,
  In i (roster (final (fire env cb w))) ->
  In i (roster w)
  \/ (cb = CbHandleFingerprintVerification i
      /\ current_phase (workflow w) = PHASE_ONE
      /\ verified_against_own_record env i).
Proof.
  intros env cb w i H. destruct cb; cbn [fire] in H.
  - rewrite roster_self_switch_to_scene in H. left; exact H.
  - destruct (handle_fingerprint_verification_roster env hajj_id0 w) as [E|[E [_ [Hp Hv]]]];
      rewrite E in H.
    + left; exact H.
    + apply in_app_or in H. destruct H as [H|[H|[]]].
      * left; exact H.
      * subst hajj_id0. right. repeat split; assumption.
  - rewrite roster_proceed_with_trip in H. left; exact H.
  - rewrite roster__perform_headcount in H. left; exact H.
  - rewrite roster_start_trip in H. left; exact H.
  - left; exact H.
  - rewrite roster_handle_pin_verified in H. left; exact H.
  - destruct (roster_pin_keys "" w) as [_ [_ E]]. rewrite E in H. left; exact H.
Qed.

Definition record_H001 : HajjRecord :=
  {| hajj_id := "H001"; name := Some "Amina";
     fingerprint_data := Some [("location", JStr "12")] |}.

(** A sensor on which a finger is placed and compares equal to the
    template at [location] only, with the given confidence. *)
Definition sensor_matching (location c : Z) : Adafruit_Fingerprint :=
  {| get_image := [Val NOFINGER; Val OK];
     image_2_tz := OK;
     load_model := fun _ => OK;
     compare_templates := OK;
     finger_search := OK;
     finger_id := location;
     finger_confidence := c |}.

(** Scenario A: the card read gives H001, the registry holds H001 with
    fingerprint location 12, and the finger matches there with confidence
    [c]. *)
Definition env_A (c : Z) : Env :=
  {| get_hajj_records := Val [record_H001];
     finger := sensor_matching 12 c;
     read_nfc := Some "H001";
     now := 0; now_again := 0 |}.

(** A fresh kiosk with its window and no encryption manager. *)
Definition world_fresh : World := final (UserWorkflow_init None None true true).

(** The kiosk after the monitor tick that read the card of H001: the
    fingerprint step of H001 is the pending timer. *)
Definition world_card_pending : World := final (step (env_A 80) MonitorTimeout world_fresh).

(** C1. Whatever the event loop delivers, an identifier [i] is in the
    roster afterwards only if it was there before, or the event is the
    pending fingerprint step of [i], run in PHASE_ONE, in which the
    registry lookup by [i] found a record and the finger matched the
    template at the fingerprint location stored in that record. *)
Theorem roster_admits_only_verified_identifiers :
  forall (env : Env) (ev : Event) (w : World) (i : string),
    In i (roster (final (step env ev w))) ->
    In i (roster w)
    \/ ((exists k ms, ev = TimerFired k
                      /\ nth_error (timers w) k = Some (ms, CbHandleFingerprintVerification i))
        /\ current_phase (workflow w) = PHASE_ONE
        /\ verified_against_own_record env i).
Proof.
  intros env ev w i H. destruct ev; cbn [step] in H.
  - left. revert H. unfold_monad.
    destruct (monitor_timer (workflow w)); [ | exact (fun H => H) ].
    rewrite roster__monitor_nfc_and_door. exact (fun H => H).
  - revert H. unfold timer_fired. unfold_monad.
    destruct (nth_error (timers w) k) as [[ms cb]|] eqn:Hk; [ | left; exact H ].
    intro H. apply roster_fire in H. destruct H as [H|[Hcb [Hp Hv]]].
    + left; exact H.
    + right. subst cb. split; [ exists k, ms; split; [ reflexivity | exact Hk ] | ].
      split; assumption.
  - left. destruct (roster_pin_keys digit w) as [E _]. rewrite E in H. exact H.
  - left. destruct (roster_pin_keys "" w) as [_ [E _]]. rewrite E in H. exact H.
  - left. rewrite roster_verify_pin in H. exact H.
  - left. revert H. unfold window_workflow_ref. unfold_monad.
    destruct (window_workflow w); [ | exact (fun H => H) ].
    rewrite roster_end_trip. exact (fun H => H).
  - left. destruct (roster_start_new_trip w) as [E|E]; rewrite E in H;
      [ exact H | destruct H ].
  - left. rewrite roster_toggle_door in H. exact H.
  - left. rewrite roster_reset_ui in H. exact H.
Qed.

Lemma roster_fire_or_frame : forall env ev w i,
  In i (roster (final (step env ev w))) ->
  In i (roster w) \/ verified_against_own_record env i.
Proof.
  intros env ev w i H. destruct ev; cbn [step] in H.
  - left. revert H. unfold_monad.
    destruct (monitor_timer (workflow w)); [ | exact (fun H => H) ].
    rewrite roster__monitor_nfc_and_door. exact (fun H => H).
  - revert H. unfold timer_fired. unfold_monad.
    destruct (nth_error (timers w) k) as [[ms cb]|]; [ | left; exact H ].
    intro H. apply roster_fire in H. destruct H as [H|[_ [_ Hv]]].
    + left; exact H.
    + right; exact Hv.
  - left. destruct (roster_pin_keys digit w) as [E _]. rewrite E in H. exact H.
  - left. destruct (roster_pin_keys "" w) as [_ [E _]]. rewrite E in H. exact H.
  - left. rewrite roster_verify_pin in H. exact H.
  - left. revert H. unfold window_workflow_ref. unfold_monad.
    destruct (window_workflow w); [ | exact (fun H => H) ].
    rewrite roster_end_trip. exact (fun H => H).
  - left. destruct (roster_start_new_trip w) as [E|E]; rewrite E in H;
      [ exact H | destruct H ].
  - left. rewrite roster_toggle_door in H. exact H.
  - left. rewrite roster_reset_ui in H. exact H.
Qed.

Lemma roster_admits_only_verified_identifiers_witness :
  In "H001" (roster (final (step (env_A 80) (TimerFired 0) world_card_pending)))
  /\ (In "H001" (roster world_card_pending)
      \/ ((exists k ms, TimerFired 0 = TimerFired k
                        /\ nth_error (timers world_card_pending) k
                           = Some (ms, CbHandleFingerprintVerification "H001"))
          /\ current_phase (workflow world_card_pending) = PHASE_ONE
          /\ verified_against_own_record (env_A 80) "H001")).
Proof.
  split.
  - vm_compute. left. reflexivity.
  - apply (roster_admits_only_verified_identifiers
             (env_A 80) (TimerFired 0) world_card_pending "H001").
    vm_compute. left. reflexivity.
Defined.

Lemma check_specific_finger_matched : forall f loc r,
  check_specific_finger f loc = Val (Some r) ->
  matched r = true /\ template_id r = loc /\ confidence r = finger_confidence f.
Proof.
  intros f loc r. unfold check_specific_finger. unfold_monad.
  destruct (wait_for_finger (get_image f)) as [[|]|]; cbn; try discriminate.
  repeat (break_match; try discriminate).
  intro H. inversion H. cbn. repeat split.
Qed.

(** The threshold of 50 lives in [verify_fingerprint] only. *)
Lemma verify_fingerprint_threshold : forall f records i,
  verify_fingerprint f records i = Val true ->
  min_confidence <= finger_confidence f.
Proof.
  intros f records i. unfold verify_fingerprint, search_fingerprint. unfold_monad.
  destruct (wait_for_finger (get_image f)) as [[|]|]; cbn; try discriminate.
  repeat (break_match; cbn; try discriminate).
  intros _. apply Z.leb_le. assumption.
Qed.

Section RecordFound.
Variables (env : Env) (i : string) (w : World).
Variables (recs : list HajjRecord) (rec : HajjRecord) (fp : JObject) (loc : Z).
Hypothesis Hphase : current_phase (workflow w) = PHASE_ONE.
Hypothesis Hrecs : get_hajj_records env = Val recs.
Hypothesis Hfind : find (fun record => String.eqb (hajj_id record) i) recs = Some rec.
Hypothesis Hfp : fingerprint_data_truthy rec = Some fp.
Hypothesis Hloc : py_int (dict_get "location" fp) = Val loc.

Ltac to_the_sensor :=
  exec; rewrite Hphase; cbn; rewrite Hrecs; cbn; rewrite Hfind, Hfp; cbn;
  rewrite Hloc; cbn.

(** Once the record of [i] is found, the roster after the fingerprint
    step is decided by what [check_specific_finger] returns. *)
Lemma roster_after_comparison : forall result,
  check_specific_finger (finger env) loc = Val result ->
  roster (final (handle_fingerprint_verification env i w)) =
    match result with
    | Some _ => if in_scans i (roster w) then roster w else (roster w ++ [i])%list
    | None => roster w
    end.
Proof.
  intros result Hcheck. unfold roster.
  destruct result as [r|].
  - destruct (check_specific_finger_matched _ _ _ Hcheck) as [Hm _].
    to_the_sensor. rewrite Hcheck. cbn. rewrite Hm.
    destruct (in_scans i (hajj_id_scans (workflow w))); cbn;
      destruct (gui_window (workflow w)) eqn:Hgui;
        repeat (progress (cbn; rewrite ?Hgui)); reflexivity.
  - to_the_sensor. rewrite Hcheck. cbn.
    destruct (gui_window (workflow w)) eqn:Hgui;
        repeat (progress (cbn; rewrite ?Hgui)); reflexivity.
Qed.

(** With the window attached, a match ends in the success feedback. *)
Lemma success_feedback : forall r,
  gui_window (workflow w) = true ->
  check_specific_finger (finger env) loc = Val (Some r) ->
  exists w',
    handle_fingerprint_verification env i w = Ret tt w'
    /\ current_scene_type (scene_manager w') = Some SUCCESS
    /\ success_message (scene_manager w') = welcome (name rec)
    /\ sounds w' = (sounds w ++ [SuccessSound])%list
    /\ timers w' = (timers w ++ [(3000, CbSwitchToScene CARD_SCAN)])%list.
Proof.
  intros r Hgui Hcheck.
  destruct (check_specific_finger_matched _ _ _ Hcheck) as [Hm _].
  to_the_sensor. rewrite Hcheck. cbn. rewrite Hm.
  destruct (in_scans i (hajj_id_scans (workflow w)));
    repeat (progress (cbn; rewrite ?Hgui));
    eexists; (split; [ reflexivity | cbn; repeat split ]).
Qed.
End RecordFound.

(** C3, as stated, fails: with the record of H001 found and its template
    at location 12 comparing equal with confidence 10, below the threshold
    of 50, H001 is admitted to the empty roster. *)
Lemma admission_below_min_confidence :
  check_specific_finger (finger (env_A 10)) 12
    = Val (Some {| matched := true; template_id := 12; confidence := 10 |})
  /\ 10 < min_confidence
  /\ roster world_card_pending = []
  /\ roster (final (step (env_A 10) (TimerFired 0) world_card_pending))
     = ["H001"].
Proof. repeat split. Qed.

(** C3 (amended). In PHASE_ONE, once the registry lookup has found the
    record of [i] with its fingerprint location, the identifier is admitted
    whenever [check_specific_finger] reports a match for that location; the
    match flag alone decides, and the confidence it reports, which is the
    sensor's register, is compared with nothing.  The threshold of 50 is
    enforced by [verify_fingerprint] only, which the engine does not call. *)
Theorem admission_follows_sensor_match_flag :
  forall (env : Env) (i : string) (w : World)
         (recs : list HajjRecord) (rec : HajjRecord) (fp : JObject) (loc : Z)
         (r : FingerMatch),
    current_phase (workflow w) = PHASE_ONE ->
    get_hajj_records env = Val recs ->
    find (fun record => String.eqb (hajj_id record) i) recs = Some rec ->
    fingerprint_data_truthy rec = Some fp ->
    py_int (dict_get "location" fp) = Val loc ->
    check_specific_finger (finger env) loc = Val (Some r) ->
    matched r = true
    /\ confidence r = finger_confidence (finger env)
    /\ In i (roster (final (handle_fingerprint_verification env i w)))
    /\ (forall records j,
          verify_fingerprint (finger env) records j = Val true ->
          min_confidence <= finger_confidence (finger env)).
Proof.
  intros env i w recs rec fp loc r Hphase Hrecs Hfind Hfp Hloc Hcheck.
  destruct (check_specific_finger_matched _ _ _ Hcheck) as [Hm [_ Hc]].
  split; [ exact Hm | split; [ exact Hc | split ] ].
  - rewrite (roster_after_comparison env i w recs rec fp loc
               Hphase Hrecs Hfind Hfp Hloc (Some r) Hcheck).
    destruct (in_scans i (roster w)) eqn:Hin.
    + apply in_scans_In. exact Hin.
    + apply in_or_app. right. left. reflexivity.
  - intros records j. apply verify_fingerprint_threshold.
Qed.

Lemma admission_follows_sensor_match_flag_witness :
  confidence {| matched := true; template_id := 12; confidence := 10 |} = 10
  /\ In "H001" (roster (final (handle_fingerprint_verification
                                 (env_A 10) "H001" world_card_pending))).
Proof.
  destruct (admission_follows_sensor_match_flag
              (env_A 10) "H001" world_card_pending
              [record_H001] record_H001 [("location", JStr "12")] 12
              {| matched := true; template_id := 12; confidence := 10 |}
              eq_refl eq_refl eq_refl eq_refl eq_refl eq_refl)
    as [_ [Hc [Hin _]]].
  split; [ exact Hc | exact Hin ].
Defined.

(** A world in which H001 is already on the roster and presents the card
    and the finger again. *)
Definition world_H001_aboard : World :=
  final (step (env_A 80) (TimerFired 0) world_card_pending).

(** C4. A successful card and fingerprint verification of [i] in PHASE_ONE
    returns with the success scene and the success sound; when [i] is
    already on the roster, the roster is unchanged, and otherwise exactly
    one copy of [i] is appended. *)
Theorem admission_is_idempotent :
  forall (env : Env) (i : string) (w : World)
         (recs : list HajjRecord) (rec : HajjRecord) (fp : JObject) (loc : Z)
         (r : FingerMatch),
    current_phase (workflow w) = PHASE_ONE ->
    gui_window (workflow w) = true ->
    get_hajj_records env = Val recs ->
    find (fun record => String.eqb (hajj_id record) i) recs = Some rec ->
    fingerprint_data_truthy rec = Some fp ->
    py_int (dict_get "location" fp) = Val loc ->
    check_specific_finger (finger env) loc = Val (Some r) ->
    exists w',
      handle_fingerprint_verification env i w = Ret tt w'
      /\ current_scene_type (scene_manager w') = Some SUCCESS
      /\ sounds w' = (sounds w ++ [SuccessSound])%list
      /\ (In i (roster w) ->
          roster w' = roster w /\ List.length (roster w') = List.length (roster w))
      /\ (~ In i (roster w) -> roster w' = (roster w ++ [i])%list).
Proof.
  intros env i w recs rec fp loc r Hphase Hgui Hrecs Hfind Hfp Hloc Hcheck.
  destruct (success_feedback env i w recs rec fp loc
              Hphase Hrecs Hfind Hfp Hloc r Hgui Hcheck)
    as [w' [Hrun [Hscene [_ [Hsound _]]]]].
  pose proof (roster_after_comparison env i w recs rec fp loc
                Hphase Hrecs Hfind Hfp Hloc (Some r) Hcheck) as Hroster.
  rewrite Hrun in Hroster. cbn [final] in Hroster.
  exists w'. split; [ exact Hrun | split; [ exact Hscene | split; [ exact Hsound | split ] ] ].
  - intro Hin. apply in_scans_In in Hin. rewrite Hin in Hroster.
    rewrite Hroster. split; reflexivity.
  - intro Hnot. destruct (in_scans i (roster w)) eqn:Hin.
    + exfalso. apply Hnot. apply in_scans_In. exact Hin.
    + exact Hroster.
Qed.

Lemma admission_is_idempotent_witness :
  roster world_H001_aboard = ["H001"]
  /\ exists w',
       handle_fingerprint_verification (env_A 80) "H001" world_H001_aboard = Ret tt w'
       /\ current_scene_type (scene_manager w') = Some SUCCESS
       /\ roster w' = ["H001"].
Proof.
  split; [ reflexivity | ].
  destruct (admission_is_idempotent
              (env_A 80) "H001" world_H001_aboard
              [record_H001] record_H001 [("location", JStr "12")] 12
              {| matched := true; template_id := 12; confidence := 80 |}
              eq_refl eq_refl eq_refl eq_refl eq_refl eq_refl eq_refl)
    as [w' [Hrun [Hscene [_ [Hin _]]]]].
  exists w'. split; [ exact Hrun | split; [ exact Hscene | ] ].
  apply Hin. left. reflexivity.
Defined.

(** *** Starting a new trip *)





(** *** Card rejection *)

(** The card does not name a registered passenger: decoding fails, or the
    decoded identifier is empty, or is the [hajj_id] of no record. *)
Definition card_not_in_registry (env : Env) (w : World) (nfc_data : string) : Prop :=
  verify_nfc_data nfc_data (encryption_manager (workflow w)) = Val None
  \/ exists decoded recs,
       verify_nfc_data nfc_data (encryption_manager (workflow w)) = Val (Some decoded)
       /\ get_hajj_records env = Val recs
       /\ forall record, In record recs -> hajj_id record <> decoded.

Lemma no_record_existsb : forall decoded recs,
  (forall record, In record recs -> hajj_id record <> decoded) ->
  existsb (fun record => String.eqb (hajj_id record) decoded) recs = false.
Proof.
  intros decoded recs H. induction recs as [|r recs IH]; [ reflexivity | ].
  cbn. rewrite IH by (intros r' Hin; apply H; right; exact Hin).
  destruct (String.eqb_spec (hajj_id r) decoded) as [E|E]; [ | reflexivity ].
  exfalso. apply (H r); [ left; reflexivity | exact E ].
Qed.

(** With the window attached, a card that does not name a registered
    passenger is rejected. *)
Lemma card_rejected_with_window : forall env w nfc_data,
  current_phase (workflow w) = PHASE_ONE ->
  gui_window (workflow w) = true ->
  card_not_in_registry env w nfc_data ->
  exists w',
    handle_nfc_detection env nfc_data w = Ret tt w'
    /\ current_scene_type (scene_manager w') = Some CARD_FAILED
    /\ sounds w' = (sounds w ++ [FailSound])%list
    /\ timers w' = (timers w ++ [(5000, CbSwitchToScene CARD_SCAN)])%list
    /\ roster w' = roster w
    /\ workflow w' = workflow w.
Proof.
  intros env w nfc_data Hphase Hgui Hcard.
  destruct Hcard as [Hnone | [decoded [recs [Hdec [Hrecs Habsent]]]]].
  - exec. rewrite Hphase. repeat (progress (cbn; rewrite ?Hgui)).
    rewrite Hnone. repeat (progress (cbn; rewrite ?Hgui)).
    eexists. split; [ reflexivity | cbn; repeat split ].
  - pose proof (no_record_existsb decoded recs Habsent) as Hex.
    exec. rewrite Hphase. repeat (progress (cbn; rewrite ?Hgui)).
    rewrite Hdec. cbn.
    destruct decoded as [|c rest].
    + repeat (progress (cbn; rewrite ?Hgui)).
      eexists. split; [ reflexivity | cbn; repeat split ].
    + cbn. rewrite Hrecs. cbn. cbn in Hex. rewrite Hex.
      repeat (progress (cbn; rewrite ?Hgui)).
      eexists. split; [ reflexivity | cbn; repeat split ].
Qed.

(** An engine built without a window, the constructor's default, has no
    scene manager: in PHASE_ONE [handle_nfc_detection] raises on its first
    scene switch, before the card is decoded, and changes nothing. *)
Lemma handle_nfc_detection_without_window : forall env w nfc_data,
  current_phase (workflow w) = PHASE_ONE ->
  gui_window (workflow w) = false ->
  handle_nfc_detection env nfc_data w
  = Exc (AttributeError "'NoneType' object has no attribute of SceneManager") w.
Proof.
  intros env w nfc_data Hphase Hgui.
  exec. rewrite Hphase. repeat (progress (cbn; rewrite ?Hgui)). reflexivity.
Qed.

(** The monitor slot of such an engine, with the door open and the reader
    active, raises on every card: its handler reaches for the window too. *)
Lemma _monitor_nfc_and_door_without_window : forall env w nfc_data,
  current_phase (workflow w) = PHASE_ONE ->
  gui_window (workflow w) = false ->
  door_status (workflow w) = true ->
  nfc_reader_active (workflow w) = true ->
  card_read env = Some nfc_data ->
  _monitor_nfc_and_door env w
  = Exc (AttributeError "'NoneType' object has no attribute 'show_message'") w.
Proof.
  intros env w nfc_data Hphase Hgui Hdoor Hactive Hcard.
  unfold _monitor_nfc_and_door, try_except, bind at 1, get.
  unfold handle_door_status. cbn [door_open]. rewrite Hdoor, Hactive, Hcard.
  cbn [negb]. rewrite (handle_nfc_detection_without_window env w nfc_data Hphase Hgui).
  unfold gui_show_message, bind, get. rewrite Hgui. reflexivity.
Qed.

(** An engine built without a window, as [main] builds it, here with no
    camera and no encryption manager. *)
Definition world_without_window : World :=
  final (UserWorkflow_init None None false false).

(** Scenario B: the card read gives H002; the registry holds H001 only. *)
Definition env_B : Env :=
  {| get_hajj_records := Val [record_H001];
     finger := sensor_matching 12 80;
     read_nfc := Some "H002";
     now := 0; now_again := 0 |}.

(** C6. A card that does not name a registered passenger (its payload
    decodes to an identifier absent from the registry, or decoding fails),
    read in PHASE_ONE.  With the window attached the attempt ends as a card
    rejection: the card-failed scene, the failure sound, the return to the
    card-scan scene scheduled and nothing else, so no fingerprint step, and
    the engine's phase and roster unchanged.  On an engine built without a
    window, [handle_nfc_detection] raises instead and so does the monitor
    slot that called it: the roster is unchanged and no fingerprint step is
    scheduled, but no scene is shown, no sound is played and no return to
    the card-scan scene is scheduled. *)
Theorem unknown_card_rejection_needs_the_window :
  forall (env : Env) (w : World) (nfc_data : string),
    current_phase (workflow w) = PHASE_ONE ->
    card_not_in_registry env w nfc_data ->
    (gui_window (workflow w) = true ->
     exists w',
       handle_nfc_detection env nfc_data w = Ret tt w'
       /\ current_scene_type (scene_manager w') = Some CARD_FAILED
       /\ sounds w' = (sounds w ++ [FailSound])%list
       /\ timers w' = (timers w ++ [(5000, CbSwitchToScene CARD_SCAN)])%list
       /\ roster w' = roster w
       /\ workflow w' = workflow w)
    /\ (gui_window (workflow w) = false ->
        (exists e, handle_nfc_detection env nfc_data w = Exc e w)
        /\ (door_status (workflow w) = true ->
            nfc_reader_active (workflow w) = true ->
            card_read env = Some nfc_data ->
            exists e, _monitor_nfc_and_door env w = Exc e w)).
Proof.
  intros env w nfc_data Hphase Hcard. split.
  - intro Hgui. apply card_rejected_with_window; assumption.
  - intro Hgui. split.
    + eexists. apply handle_nfc_detection_without_window; assumption.
    + intros Hdoor Hactive Hread. eexists.
      apply (_monitor_nfc_and_door_without_window env w nfc_data); assumption.
Qed.

Lemma unknown_card_rejection_needs_the_window_witness :
  (exists w',
     handle_nfc_detection env_B "H002" world_fresh = Ret tt w'
     /\ current_scene_type (scene_manager w') = Some CARD_FAILED
     /\ timers w' = [(5000, CbSwitchToScene CARD_SCAN)]
     /\ roster w' = [])
  /\ (exists e,
        _monitor_nfc_and_door env_B world_without_window = Exc e world_without_window)
  /\ current_scene_type (scene_manager world_without_window) = None
  /\ sounds world_without_window = []
  /\ timers world_without_window = [].
Proof.
  assert (Hcard : forall w, encryption_manager (workflow w) = None ->
                            card_not_in_registry env_B w "H002").
  { intros w Hem. right. exists "H002", [record_H001]. rewrite Hem.
    split; [ reflexivity | split; [ reflexivity | ] ].
    intros record [E|[]]. subst record. discriminate. }
  destruct (unknown_card_rejection_needs_the_window env_B world_fresh "H002"
              eq_refl (Hcard world_fresh eq_refl)) as [Hwith _].
  destruct (unknown_card_rejection_needs_the_window env_B world_without_window "H002"
              eq_refl (Hcard world_without_window eq_refl)) as [_ Hwithout].
  destruct (Hwith eq_refl) as [w' [Hrun [Hs [_ [Ht [Hr _]]]]]].
  destruct (Hwithout eq_refl) as [_ Htick].
  split; [ exists w'; repeat split; assumption | ].
  split; [ apply Htick; reflexivity | repeat split ].
Defined.

(** *** The PIN gate *)

Lemma String_eqb_false : forall a b : string, a <> b -> String.eqb a b = false.
Proof. intros a b H. apply String.eqb_neq. exact H. Qed.

(** C7. With the configured PIN "1234": submitting any other PIN returns
    with an error text on the PIN scene ("Please enter PIN" for an empty
    entry, "Incorrect PIN" otherwise), leaves the engine (its phase and
    roster with it) and the current scene unchanged, and schedules no
    [pin_verified] signal; submitting "1234" schedules the signal, and when
    it is delivered with the engine in PHASE_TWO and known to the window,
    the headcount-processing scene is shown and [start_trip] is scheduled. *)
Theorem pin_gate_rejects_wrong_and_accepts_configured :
  forall (w : World) (pin : string),
    correct_pin (pin_entry w) = "1234" ->
    current_pin (pin_entry w) = pin ->
    (pin <> "1234" ->
     exists w',
       verify_pin w = Ret tt w'
       /\ (status_label (pin_entry w') = "Please enter PIN"
           \/ status_label (pin_entry w') = "Incorrect PIN")
       /\ workflow w' = workflow w
       /\ roster w' = roster w
       /\ current_scene_type (scene_manager w') = current_scene_type (scene_manager w)
       /\ (timers w' = timers w
           \/ timers w' = (timers w ++ [(1000, CbResetDisplayStyle)])%list))
    /\ (pin = "1234" ->
        exists w1,
          verify_pin w = Ret tt w1
          /\ workflow w1 = workflow w
          /\ timers w1 = (timers w ++ [(500, CbPinVerifiedEmit)])%list
          /\ (current_phase (workflow w) = PHASE_TWO ->
              window_workflow w = true ->
              forall env, exists w2,
                fire env CbPinVerifiedEmit w1 = Ret tt w2
                /\ current_scene_type (scene_manager w2) = Some HEADCOUNT_PROCESSING
                /\ timers w2 = (timers w1 ++ [(1000, CbStartTrip)])%list
                /\ current_phase (workflow w2) = PHASE_TWO
                /\ roster w2 = roster w)).
Proof.
  intros w pin Hcorrect Hpin. split.
  - intro Hwrong. unfold roster. exec. rewrite Hpin, Hcorrect.
    destruct pin as [|c rest].
    + eexists. split; [ reflexivity | cbn ].
      repeat split; try reflexivity; left; reflexivity.
    + rewrite (String_eqb_false _ _ Hwrong).
      eexists. split; [ reflexivity | cbn ].
      repeat split; try reflexivity; right; reflexivity.
  - intro Hright. subst pin. exec. rewrite Hright, Hcorrect. cbn.
    eexists. split; [ reflexivity | cbn ].
    split; [ reflexivity | split; [ reflexivity | ] ].
    intros Hphase Hwin env. unfold roster.
    rewrite Hwin, Hphase. cbn.
    destruct (gui_window (workflow w)); cbn;
      (eexists; split; [ reflexivity | cbn; rewrite ?Hphase; repeat split ]).
Qed.

(** The kiosk in PHASE_TWO: H001 is aboard, the door was closed and the
    monitor tick has seen it. *)
Definition world_pin_gate : World :=
  run [(env_A 80, ToggleDoorPressed); (env_A 80, MonitorTimeout)] world_H001_aboard.

(** Pressing the digits of a PIN one after the other. *)
Definition type_pin (digits : list string) (w : World) : World :=
  run (map (fun digit => (env_A 80, DigitPressed digit)) digits) w.

Lemma pin_gate_rejects_wrong_and_accepts_configured_witness :
  current_phase (workflow world_pin_gate) = PHASE_TWO
  /\ (exists w',
        verify_pin (type_pin ["0"; "0"; "0"; "0"] world_pin_gate) = Ret tt w'
        /\ workflow w' = workflow world_pin_gate
        /\ roster w' = ["H001"])
  /\ (exists w1 w2,
        verify_pin (type_pin ["1"; "2"; "3"; "4"] world_pin_gate) = Ret tt w1
        /\ fire (env_A 80) CbPinVerifiedEmit w1 = Ret tt w2
        /\ current_scene_type (scene_manager w2) = Some HEADCOUNT_PROCESSING).
Proof.
  split; [ reflexivity | split ].
  - destruct (pin_gate_rejects_wrong_and_accepts_configured
                (type_pin ["0"; "0"; "0"; "0"] world_pin_gate) "0000" eq_refl eq_refl)
      as [Hwrong _].
    destruct Hwrong as [w' [Hrun [_ [Hw [Hr _]]]]]; [ discriminate | ].
    exists w'. split; [ exact Hrun | ].
    rewrite Hw, Hr. split; vm_compute; reflexivity.
  - destruct (pin_gate_rejects_wrong_and_accepts_configured
                (type_pin ["1"; "2"; "3"; "4"] world_pin_gate) "1234" eq_refl eq_refl)
      as [_ Hright].
    destruct (Hright eq_refl) as [w1 [Hrun [_ [_ Hemit]]]].
    destruct (Hemit eq_refl eq_refl (env_A 80)) as [w2 [Hfire [Hs _]]].
    exists w1, w2. split; [ exact Hrun | split; [ exact Hfire | exact Hs ] ].
Defined.

(** Scenario E as one run: "0000" and "9999" are refused, "1234" is
    accepted, and the delivered signal shows the headcount-processing
    scene with H001 still the only passenger. *)
Example scenario_E :
  let digits pin := map (fun digit => (env_A 80, DigitPressed digit)) pin in
  let w :=
    run (digits ["0"; "0"; "0"; "0"] ++ [(env_A 80, EnterPressed)]
         ++ digits ["9"; "9"; "9"; "9"] ++ [(env_A 80, EnterPressed)]
         ++ digits ["1"; "2"; "3"; "4"] ++ [(env_A 80, EnterPressed)])%list
      world_pin_gate in
  map snd (timers w)
    = [CbSwitchToScene CARD_SCAN; CbResetDisplayStyle; CbResetDisplayStyle; CbPinVerifiedEmit]
  /\ current_scene_type (scene_manager w) = Some PIN_ENTRY
  /\ current_scene_type (scene_manager (final (step (env_A 80) (TimerFired 3) w)))
     = Some HEADCOUNT_PROCESSING
  /\ roster (final (step (env_A 80) (TimerFired 3) w)) = ["H001"].
Proof. repeat split. Qed.

(** *** Leaving PHASE_ONE with an attempt in flight *)

Lemma stale_fingerprint_step_returns : forall env i w,
  current_phase (workflow w) <> PHASE_ONE ->
  handle_fingerprint_verification env i w = Ret tt w.
Proof.
  intros env i w H. exec.
  destruct (current_phase (workflow w)); [ contradiction | reflexivity ].
Qed.

Lemma door_closed_tick : forall env w,
  monitor_timer (workflow w) = true ->
  door_status (workflow w) = false ->
  current_phase (workflow (final (step env MonitorTimeout w))) = PHASE_TWO
  /\ roster (final (step env MonitorTimeout w)) = roster w
  /\ timers (final (step env MonitorTimeout w)) = timers w.
Proof.
  intros env w Hmon Hdoor. unfold roster. exec. rewrite Hmon, Hdoor. cbn.
  destruct (gui_window (workflow w)) eqn:Hgui;
    repeat (progress (cbn; rewrite ?Hgui)); repeat split.
Qed.

(** C8. A deferred fingerprint step that fires in a phase other than
    PHASE_ONE returns at once and leaves the whole kiosk as it was.  In
    particular, when the monitor tick sees the door closed while the step
    is still pending, the engine is in PHASE_TWO afterwards, and the step
    firing later only leaves the timer queue: nobody is admitted. *)
Theorem pending_attempt_is_abandoned_outside_phase_one :
  forall (env : Env) (i : string) (w : World),
    current_phase (workflow w) <> PHASE_ONE ->
    handle_fingerprint_verification env i w = Ret tt w
    /\ forall (env0 : Env) (w0 : World) (k : nat) (ms : Z),
         monitor_timer (workflow w0) = true ->
         door_status (workflow w0) = false ->
         nth_error (timers w0) k = Some (ms, CbHandleFingerprintVerification i) ->
         current_phase (workflow (final (step env0 MonitorTimeout w0))) = PHASE_TWO
         /\ step env (TimerFired k) (final (step env0 MonitorTimeout w0))
            = Ret tt (set_timers (firstn k (timers w0) ++ skipn (S k) (timers w0))
                        (final (step env0 MonitorTimeout w0)))
         /\ roster (final (step env (TimerFired k) (final (step env0 MonitorTimeout w0))))
            = roster w0.
Proof.
  intros env i w Hphase. split; [ apply stale_fingerprint_step_returns; exact Hphase | ].
  intros env0 w0 k ms Hmon Hdoor Hk.
  destruct (door_closed_tick env0 w0 Hmon Hdoor) as [Hp [Hr Ht]].
  split; [ exact Hp | ].
  assert (Hstep :
            step env (TimerFired k) (final (step env0 MonitorTimeout w0))
            = Ret tt (set_timers (firstn k (timers w0) ++ skipn (S k) (timers w0))
                        (final (step env0 MonitorTimeout w0)))).
  { set (w1 := final (step env0 MonitorTimeout w0)) in *. clearbody w1.
    cbn [step]. unfold timer_fired. unfold_monad. rewrite Ht, Hk. cbn [fire].
    apply stale_fingerprint_step_returns. cbn. rewrite Hp. discriminate. }
  split; [ exact Hstep | ].
  rewrite Hstep. cbn [final]. exact Hr.
Qed.

(** The door is closed while the fingerprint step of H001 is pending. *)
Definition world_door_closed_mid_attempt : World :=
  final (step (env_A 80) ToggleDoorPressed world_card_pending).

Lemma pending_attempt_is_abandoned_outside_phase_one_witness :
  nth_error (timers world_door_closed_mid_attempt) 0
    = Some (2000, CbHandleFingerprintVerification "H001")
  /\ roster (run [(env_A 80, MonitorTimeout); (env_A 80, TimerFired 0)]
               world_door_closed_mid_attempt) = []
  /\ handle_fingerprint_verification (env_A 80) "H001" world_pin_gate = Ret tt world_pin_gate.
Proof.
  destruct (pending_attempt_is_abandoned_outside_phase_one (env_A 80) "H001" world_pin_gate)
    as [Hguard Hdoor]; [ discriminate | ].
  split; [ reflexivity | split; [ | exact Hguard ] ].
  destruct (Hdoor (env_A 80) world_door_closed_mid_attempt 0%nat 2000
              eq_refl eq_refl eq_refl) as [_ [_ Hr]].
  exact Hr.
Defined.

(** *** Decoding the card *)

Lemma verify_nfc_data_returns : forall nfc_data em,
  exists decoded, verify_nfc_data nfc_data em = Val decoded.
Proof.
  intros nfc_data [m|]; unfold verify_nfc_data; unfold_monad.
  - destruct (decrypt_data m nfc_data); eexists; reflexivity.
  - eexists; reflexivity.
Qed.

(** With the window attached, the monitor slot returns whatever the card
    reader, the registry and the decryption do. *)
Lemma _monitor_nfc_and_door_returns : forall env w,
  gui_window (workflow w) = true ->
  returned (_monitor_nfc_and_door env w) = true.
Proof.
  intros env w Hgui. exec.
  repeat (first [ progress (cbn; rewrite ?Hgui) | break_match ]);
    try reflexivity; try congruence.
Qed.

(** An encryption manager whose [decrypt_data] raises on every payload,
    as [unpad] does on a card that was not written by the kiosk. *)
Definition failing_decryption : EncryptionKeyManager :=
  {| decrypt_data := fun _ => Raise (ValueError "Padding is incorrect.") |}.

(** The card reader handing over an unreadable payload. *)
Definition env_garbled : Env :=
  {| get_hajj_records := Val [record_H001];
     finger := sensor_matching 12 80;
     read_nfc := Some "garbled";
     now := 0; now_again := 0 |}.

(** C10. [verify_nfc_data] never raises: without an encryption manager
    it returns the raw payload as the identifier, and when [decrypt_data]
    raises it returns [None].  With the window attached the monitor slot
    that calls it returns whatever card is read.  On an engine built
    without a window the slot raises on every card read in PHASE_ONE with
    the door open and the reader active, a malformed card included:
    [handle_nfc_detection] fails on its first scene switch, before
    [verify_nfc_data] is called, and the slot's handler fails on
    [show_message]. *)
Theorem malformed_card_containment_needs_the_window :
  forall (nfc_data : string) (em : option EncryptionKeyManager),
    (exists decoded, verify_nfc_data nfc_data em = Val decoded)
    /\ verify_nfc_data nfc_data None = Val (Some nfc_data)
    /\ (forall m e, em = Some m -> decrypt_data m nfc_data = Raise e ->
                    verify_nfc_data nfc_data em = Val None)
    /\ (forall m decoded, em = Some m -> decrypt_data m nfc_data = Val decoded ->
                          verify_nfc_data nfc_data em = Val (Some decoded))
    /\ (forall env w, gui_window (workflow w) = true ->
                      encryption_manager (workflow w) = em ->
                      read_nfc env = Some nfc_data ->
                      returned (_monitor_nfc_and_door env w) = true)
    /\ (forall env w, gui_window (workflow w) = false ->
                      encryption_manager (workflow w) = em ->
                      card_read env = Some nfc_data ->
                      current_phase (workflow w) = PHASE_ONE ->
                      door_status (workflow w) = true ->
                      nfc_reader_active (workflow w) = true ->
                      returned (_monitor_nfc_and_door env w) = false
                      /\ final (_monitor_nfc_and_door env w) = w).
Proof.
  intros nfc_data em.
  split; [ apply verify_nfc_data_returns | ].
  split; [ reflexivity | ].
  split; [ | split; [ | split ] ].
  - intros m e Hem Hraise. subst em. unfold verify_nfc_data. unfold_monad.
    rewrite Hraise. reflexivity.
  - intros m decoded Hem Hval. subst em. unfold verify_nfc_data. unfold_monad.
    rewrite Hval. reflexivity.
  - intros env w Hgui _ _. apply _monitor_nfc_and_door_returns. exact Hgui.
  - intros env w Hgui _ Hread Hphase Hdoor Hactive.
    rewrite (_monitor_nfc_and_door_without_window env w nfc_data
               Hphase Hgui Hdoor Hactive Hread).
    split; reflexivity.
Qed.

Lemma malformed_card_containment_needs_the_window_witness :
  verify_nfc_data "H001" None = Val (Some "H001")
  /\ verify_nfc_data "garbled" (Some failing_decryption) = Val None
  /\ returned (_monitor_nfc_and_door env_garbled
                 (final (UserWorkflow_init None (Some failing_decryption) true true)))
     = true
  /\ returned (_monitor_nfc_and_door env_garbled
                 (final (UserWorkflow_init None (Some failing_decryption) false false)))
     = false.
Proof.
  destruct (malformed_card_containment_needs_the_window "H001" None) as [_ [Hraw _]].
  destruct (malformed_card_containment_needs_the_window "garbled"
              (Some failing_decryption))
    as [_ [_ [Hraise [_ [Hwith Hwithout]]]]].
  split; [ exact Hraw | split; [ | split ] ].
  - apply (Hraise failing_decryption (ValueError "Padding is incorrect.")); reflexivity.
  - apply Hwith; reflexivity.
  - apply Hwithout; reflexivity.
Defined.

(** *** Whole runs *)

(** Every identifier on the roster after a run was on it before the run or
    was verified against its own record at some event of the run. *)
Lemma roster_of_run : forall evs w i,
  In i (roster (run evs w)) ->
  In i (roster w)
  \/ exists env ev, In (env, ev) evs /\ verified_against_own_record env i.
Proof.
  induction evs as [|[env ev] evs IH]; intros w i H; cbn [run] in H.
  - left; exact H.
  - destruct (IH _ _ H) as [Hin|[env' [ev' [Hin Hv]]]].
    + destruct (roster_fire_or_frame env ev w i Hin) as [Hold|Hv].
      * left; exact Hold.
      * right. exists env, ev. split; [ left; reflexivity | exact Hv ].
    + right. exists env', ev'. split; [ right; exact Hin | exact Hv ].
Qed.

(** Scenario A: the card of H001 is read, the registry holds H001 with
    fingerprint location 12 and the finger matches there with confidence
    80: H001 is admitted and the success scene is shown. *)
Example scenario_A :
  let w := run [(env_A 80, MonitorTimeout); (env_A 80, TimerFired 0)] world_fresh in
  roster w = ["H001"]
  /\ current_scene_type (scene_manager w) = Some SUCCESS
  /\ success_message (scene_manager w) = "Welcome Amina, please be seated"
  /\ sounds w = [SuccessSound; SuccessSound].
Proof. vm_compute. repeat split. Qed.

(** Scenario B: the card of H002 is read and the registry holds H001 only:
    the card is refused and nothing is pending but the return to the
    card-scan scene. *)
Example scenario_B :
  let w := run [(env_B, MonitorTimeout)] world_fresh in
  roster w = []
  /\ current_scene_type (scene_manager w) = Some CARD_FAILED
  /\ timers w = [(5000, CbSwitchToScene CARD_SCAN)]
  /\ sounds w = [FailSound].
Proof. vm_compute. repeat split. Qed.

(* ================================================================== *)
(** * Further properties of the engine *)

(** ** What one event can do to the roster, the trip number and the phase *)

Arguments perform_headcount_check : simpl never.

(** Case analysis on the event, and on the pending timer it runs; [ts] is
    the timer queue once that timer has left it. *)
Ltac on_each_event ev w :=
  destruct ev as [ |?k| | | | | | | ]; cbn [step];
  [ | unfold timer_fired; unfold_monad;
      let cb := fresh "cb" in
      destruct (nth_error (timers w) k) as [[? cb]|];
      [ generalize (firstn k (timers w) ++ skipn (S k) (timers w))%list;
        intros ts; destruct cb; cbn [fire] | ] | .. ].

Lemma roster_step_cases : forall env ev w,
  roster (final (step env ev w)) = roster w
  \/ (roster (final (step env ev w)) = [] /\ ev = NewTripPressed)
  \/ exists i, roster (final (step env ev w)) = (roster w ++ [i])%list
               /\ ~ In i (roster w)
               /\ current_phase (workflow w) = PHASE_ONE.
Proof.
  intros env ev w. on_each_event ev w.
  - left. unfold_monad. destruct (monitor_timer (workflow w)); [ | reflexivity ].
    apply roster__monitor_nfc_and_door.
  - left. rewrite roster_self_switch_to_scene. reflexivity.
  - destruct (handle_fingerprint_verification_roster env hajj_id0 (set_timers ts w))
      as [E|[E [Hin [Hp _]]]].
    + left. exact E.
    + right. right. exists hajj_id0. split; [ exact E | split; [ | exact Hp ] ].
      intro H. apply in_scans_In in H. unfold roster in *. cbn in Hin. congruence.
  - left. rewrite roster_proceed_with_trip. reflexivity.
  - left. rewrite roster__perform_headcount. reflexivity.
  - left. rewrite roster_start_trip. reflexivity.
  - left. reflexivity.
  - left. rewrite roster_handle_pin_verified. reflexivity.
  - left. destruct (roster_pin_keys "" (set_timers ts w)) as [_ [_ E]].
    rewrite E. reflexivity.
  - left. reflexivity.
  - left. apply (roster_pin_keys digit w).
  - left. apply (roster_pin_keys "" w).
  - left. apply roster_verify_pin.
  - left. unfold window_workflow_ref. unfold_monad.
    destruct (window_workflow w); [ | reflexivity ]. apply roster_end_trip.
  - destruct (roster_start_new_trip w) as [E|E];
      [ left; exact E | right; left; split; [ exact E | reflexivity ] ].
  - left. apply roster_toggle_door.
  - left. apply roster_reset_ui.
Qed.

(** X1. The roster never holds an identifier twice: no run of events
    introduces a duplicate. *)
Theorem roster_never_holds_duplicates :
  forall (evs : list (Env * Event)) (w : World),
    NoDup (roster w) -> NoDup (roster (run evs w)).
Proof.
  induction evs as [|[env ev] evs IH]; intros w H; cbn [run]; [ exact H | ].
  apply IH.
  destruct (roster_step_cases env ev w) as [E|[[E _]|[i [E [Hnot _]]]]]; rewrite E.
  - exact H.
  - constructor.
  - apply NoDup_app; [ exact H | repeat constructor; intros [] | ].
    intros x Hx [Hi|[]]. subst x. exact (Hnot Hx).
Qed.

Lemma roster_never_holds_duplicates_witness :
  NoDup (roster (run [(env_A 80, MonitorTimeout); (env_A 80, TimerFired 0);
                      (env_A 80, TimerFired 0); (env_A 80, MonitorTimeout);
                      (env_A 80, TimerFired 0)] world_fresh))
  /\ roster (run [(env_A 80, MonitorTimeout); (env_A 80, TimerFired 0);
                  (env_A 80, TimerFired 0); (env_A 80, MonitorTimeout);
                  (env_A 80, TimerFired 0)] world_fresh) = ["H001"].
Proof.
  split; [ | vm_compute; reflexivity ].
  apply roster_never_holds_duplicates. vm_compute. constructor.
Defined.

(** X2. Outside PHASE_ONE no event admits anybody: after any event
    delivered in PHASE_TWO the roster is what it was, or empty (a new trip
    was started). *)
Theorem no_admission_outside_phase_one :
  forall (env : Env) (ev : Event) (w : World),
    current_phase (workflow w) = PHASE_TWO ->
    roster (final (step env ev w)) = roster w
    \/ (roster (final (step env ev w)) = [] /\ ev = NewTripPressed).
Proof.
  intros env ev w Hp.
  destruct (roster_step_cases env ev w) as [E|[E|[i [_ [_ Hone]]]]].
  - left; exact E.
  - right; exact E.
  - congruence.
Qed.

Lemma no_admission_outside_phase_one_witness :
  roster (final (step (env_A 80) (TimerFired 0)
                   (run [(env_A 80, ToggleDoorPressed); (env_A 80, MonitorTimeout)]
                      world_card_pending)))
  = roster (run [(env_A 80, ToggleDoorPressed); (env_A 80, MonitorTimeout)]
              world_card_pending)
  \/ (roster (final (step (env_A 80) (TimerFired 0)
                       (run [(env_A 80, ToggleDoorPressed); (env_A 80, MonitorTimeout)]
                          world_card_pending))) = []
      /\ TimerFired 0 = NewTripPressed).
Proof.
  apply no_admission_outside_phase_one. vm_compute. reflexivity.
Defined.

Lemma trip_number_step : forall env ev w,
  trip_number (workflow (final (step env ev w))) = trip_number (workflow w)
  \/ (ev = NewTripPressed
      /\ trip_number (workflow (final (step env ev w))) = trip_number (workflow w) + 1).
Proof.
  intros env ev w. on_each_event ev w.
  all: exec_cases ltac:(first [ left; same | right; split; same ]).
Qed.

(** X3. The trip number never decreases and only a new trip increments
    it: over any run from a world whose trip number is at least 1 it stays
    at least 1 and at least what it was, and it exceeds the start by at
    most the number of new-trip commands in the run. *)
Theorem trip_number_is_monotonic :
  forall (evs : list (Env * Event)) (w : World),
    1 <= trip_number (workflow w) ->
    trip_number (workflow w) <= trip_number (workflow (run evs w))
    /\ trip_number (workflow (run evs w))
       <= trip_number (workflow w)
          + Z.of_nat (List.length
                        (filter (fun e => match snd e with NewTripPressed => true | _ => false end)
                           evs)).
Proof.
  induction evs as [|[env ev] evs IH]; intros w H; cbn [run].
  - cbn. lia.
  - destruct (trip_number_step env ev w) as [E|[Eev E]].
    + destruct (IH (final (step env ev w))) as [Hlo Hhi]; [ rewrite E; exact H | ].
      rewrite E in Hlo, Hhi. split; [ exact Hlo | ].
      cbn [filter snd]. destruct ev; cbn [List.length]; lia.
    + destruct (IH (final (step env ev w))) as [Hlo Hhi]; [ rewrite E; lia | ].
      rewrite E in Hlo, Hhi. subst ev. cbn [filter snd List.length]. split; lia.
Qed.

Lemma trip_number_is_monotonic_witness :
  1 <= trip_number (workflow (run [(env_A 80, EndTripPressed); (env_A 80, NewTripPressed)]
                                world_H001_aboard))
  /\ trip_number (workflow (run [(env_A 80, EndTripPressed); (env_A 80, NewTripPressed)]
                              world_H001_aboard)) <= 1 + 1.
Proof.
  destruct (trip_number_is_monotonic
              [(env_A 80, EndTripPressed); (env_A 80, NewTripPressed)] world_H001_aboard)
    as [Hlo Hhi]; [ vm_compute; discriminate | ].
  split; [ | exact Hhi ].
  eapply Z.le_trans; [ | exact Hlo ]. vm_compute. discriminate.
Defined.

(** ** Phase changes *)

Ltac phase_cases Hp tac :=
  exec; cbn; rewrite ?Hp;
  repeat (break_match; cbn in *; rewrite ?Hp; try tac); try tac.

Ltac closes_phase_goal :=
  solve [ intros; first
            [ discriminate
            | congruence
            | repeat split;
              first [ assumption | congruence
                    | apply negb_true_iff; assumption
                    | apply negb_false_iff; assumption ] ] ].

(** X4. PHASE_TWO is entered from PHASE_ONE by one event only: the
    monitor tick, with the monitor timer running, that finds the door
    closed. *)
Theorem phase_two_is_entered_only_by_the_closed_door :
  forall (env : Env) (ev : Event) (w : World),
    current_phase (workflow w) = PHASE_ONE ->
    current_phase (workflow (final (step env ev w))) = PHASE_TWO ->
    ev = MonitorTimeout
    /\ door_status (workflow w) = false
    /\ monitor_timer (workflow w) = true.
Proof.
  intros env ev w Hp. on_each_event ev w.
  all: phase_cases Hp closes_phase_goal.
Qed.

Lemma phase_two_is_entered_only_by_the_closed_door_witness :
  current_phase (workflow world_door_closed_mid_attempt) = PHASE_ONE
  /\ current_phase (workflow (final (step (env_A 80) MonitorTimeout
                                       world_door_closed_mid_attempt))) = PHASE_TWO
  /\ door_status (workflow world_door_closed_mid_attempt) = false.
Proof.
  assert (H1 : current_phase (workflow world_door_closed_mid_attempt) = PHASE_ONE)
    by (vm_compute; reflexivity).
  assert (H2 : current_phase (workflow (final (step (env_A 80) MonitorTimeout
                                                 world_door_closed_mid_attempt)))
               = PHASE_TWO)
    by (vm_compute; reflexivity).
  destruct (phase_two_is_entered_only_by_the_closed_door
              (env_A 80) MonitorTimeout world_door_closed_mid_attempt H1 H2)
    as [_ [Hdoor _]].
  split; [ exact H1 | split; [ exact H2 | exact Hdoor ] ].
Defined.

(** X5. PHASE_ONE is re-entered from PHASE_TWO only by a command of the
    operator: starting a new trip, resetting the UI from the developer
    panel, or ending the trip (when ending fails).  No monitor tick, timer
    or PIN key leads back to it. *)
Theorem phase_one_is_reentered_only_by_a_command :
  forall (env : Env) (ev : Event) (w : World),
    current_phase (workflow w) = PHASE_TWO ->
    current_phase (workflow (final (step env ev w))) = PHASE_ONE ->
    ev = NewTripPressed \/ ev = ResetUiConfirmed \/ ev = EndTripPressed.
Proof.
  intros env ev w Hp. on_each_event ev w.
  all: phase_cases Hp
         ltac:(solve [ intros; first
                         [ discriminate | congruence
                         | left; reflexivity
                         | right; left; reflexivity
                         | right; right; reflexivity ] ]).
Qed.

Lemma phase_one_is_reentered_only_by_a_command_witness :
  current_phase (workflow world_pin_gate) = PHASE_TWO
  /\ current_phase (workflow (final (step (env_A 80) NewTripPressed world_pin_gate)))
     = PHASE_ONE
  /\ (NewTripPressed = NewTripPressed \/ NewTripPressed = ResetUiConfirmed
      \/ NewTripPressed = EndTripPressed).
Proof.
  assert (H1 : current_phase (workflow world_pin_gate) = PHASE_TWO)
    by (vm_compute; reflexivity).
  assert (H2 : current_phase (workflow (final (step (env_A 80) NewTripPressed
                                                 world_pin_gate))) = PHASE_ONE)
    by (vm_compute; reflexivity).
  split; [ exact H1 | split; [ exact H2 | ] ].
  exact (phase_one_is_reentered_only_by_a_command
           (env_A 80) NewTripPressed world_pin_gate H1 H2).
Defined.

(** ** What gets scheduled *)

Lemma In_without_nth : forall (A : Type) (l : list A) k x,
  In x (firstn k l ++ skipn (S k) l) -> In x l.
Proof.
  intros A l k x H. apply in_app_or in H. destruct H as [H|H].
  - rewrite <- (firstn_skipn k l). apply in_or_app. left; exact H.
  - rewrite <- (firstn_skipn (S k) l). apply in_or_app. right; exact H.
Qed.

(** As [on_each_event], keeping that the shortened queue [ts] holds
    pending timers only. *)
Ltac on_each_event_keeping_timers ev w :=
  destruct ev as [ |?k| | | | | | | ]; cbn [step];
  [ | unfold timer_fired; unfold_monad;
      let cb := fresh "cb" in
      destruct (nth_error (timers w) k) as [[? cb]|] eqn:Hk;
      [ pose proof (In_without_nth _ (timers w) k) as Hts;
        revert Hts;
        generalize (firstn k (timers w) ++ skipn (S k) (timers w))%list;
        intros ts Hts; destruct cb; cbn [fire] | ] | .. ].

Ltac in_timers H :=
  repeat match type of H with
         | In _ (_ ++ _) => apply in_app_or in H; destruct H as [H|H]
         | In _ (_ :: _) => destruct H as [H|H]
         | In _ [] => destruct H
         end.

Lemma existsb_hajj_id : forall i recs,
  existsb (fun record => String.eqb (hajj_id record) i) recs = true ->
  exists rec, In rec recs /\ hajj_id rec = i.
Proof.
  intros i recs H. apply existsb_exists in H. destruct H as [rec [Hin Heq]].
  exists rec. split; [ exact Hin | apply String.eqb_eq; exact Heq ].
Qed.

Lemma truthy_str_Some : forall a s, truthy_str a = Some s -> a = Some s.
Proof. intros [[|c r]|] s H; cbn in H; congruence. Qed.

(** X6. A fingerprint step for [i] is pending after an event only if it
    was pending before, or the event is a monitor tick in PHASE_ONE, with
    the reader active, whose card decoded to [i] and whose registry lookup
    found a record of [i]; it is then due in 2000 ms. *)
Theorem fingerprint_step_is_scheduled_only_after_lookup :
  forall (env : Env) (ev : Event) (w : World) (ms : Z) (i : string),
    In (ms, CbHandleFingerprintVerification i) (timers (final (step env ev w))) ->
    In (ms, CbHandleFingerprintVerification i) (timers w)
    \/ (ev = MonitorTimeout /\ ms = 2000
        /\ current_phase (workflow w) = PHASE_ONE
        /\ nfc_reader_active (workflow w) = true
        /\ (exists nfc_data,
              card_read env = Some nfc_data
              /\ verify_nfc_data nfc_data (encryption_manager (workflow w)) = Val (Some i))
        /\ exists recs rec,
             get_hajj_records env = Val recs /\ In rec recs /\ hajj_id rec = i).
Proof.
  intros env ev w ms i. on_each_event_keeping_timers ev w.
  all: exec_cases ltac:(solve [ intro H; in_timers H;
                                first [ left; auto; fail | discriminate ] ]).
  intro H. in_timers H; [ left; exact H | ].
  inversion H; subst. right.
  repeat split; try reflexivity.
  - apply not_phase_one_false. assumption.
  - eexists. split; [ reflexivity | ].
    match goal with
    | Ht : truthy_str _ = Some _ |- _ => apply truthy_str_Some in Ht; subst
    end.
    assumption.
  - match goal with
    | Hx : negb (existsb _ _) = false |- _ =>
        apply negb_false_iff in Hx; apply existsb_hajj_id in Hx;
        destruct Hx as [rec [Hin Hid]]
    end.
    eexists. exists rec. split; [ reflexivity | split; assumption ].
Qed.

Lemma fingerprint_step_is_scheduled_only_after_lookup_witness :
  In (2000, CbHandleFingerprintVerification "H001") (timers world_card_pending)
  /\ (In (2000, CbHandleFingerprintVerification "H001") (timers world_fresh)
      \/ (MonitorTimeout = MonitorTimeout /\ 2000 = 2000
          /\ current_phase (workflow world_fresh) = PHASE_ONE
          /\ nfc_reader_active (workflow world_fresh) = true
          /\ (exists nfc_data,
                card_read (env_A 80) = Some nfc_data
                /\ verify_nfc_data nfc_data (encryption_manager (workflow world_fresh))
                   = Val (Some "H001"))
          /\ exists recs rec,
               get_hajj_records (env_A 80) = Val recs /\ In rec recs
               /\ hajj_id rec = "H001")).
Proof.
  assert (H : In (2000, CbHandleFingerprintVerification "H001")
                (timers (final (step (env_A 80) MonitorTimeout world_fresh))))
    by (vm_compute; left; reflexivity).
  split; [ exact H | ].
  exact (fingerprint_step_is_scheduled_only_after_lookup
           (env_A 80) MonitorTimeout world_fresh 2000 "H001" H).
Defined.

(** The scene-switch timers of a world all lead back to the card-scan
    scene. *)
Definition switches_only_to_card_scan (w : World) : Prop :=
  forall ms s, In (ms, CbSwitchToScene s) (timers w) -> s = CARD_SCAN.

Lemma switches_only_to_card_scan_step : forall env ev w,
  switches_only_to_card_scan w ->
  switches_only_to_card_scan (final (step env ev w)).
Proof.
  intros env ev w Hinv ms s. unfold switches_only_to_card_scan in Hinv.
  on_each_event_keeping_timers ev w.
  all: exec_cases ltac:(solve [ intro H; cbn in H; in_timers H;
                                first [ eapply Hinv; eauto; fail
                                      | congruence ] ]).
Qed.

Lemma trip_complete_step : forall env ev w,
  switches_only_to_card_scan w ->
  current_scene_type (scene_manager w) <> Some TRIP_COMPLETE ->
  current_scene_type (scene_manager (final (step env ev w))) = Some TRIP_COMPLETE ->
  ev = EndTripPressed.
Proof.
  intros env ev w Hinv Hnot. unfold switches_only_to_card_scan in Hinv.
  on_each_event_keeping_timers ev w.
  all: exec_cases ltac:(solve [ intro H; cbn in H;
                                first [ congruence
                                      | apply nth_error_In in Hk; apply Hinv in Hk;
                                        discriminate ] ]).
Qed.

Lemma scene_eq_dec : forall a b : option SceneType, {a = b} + {a <> b}.
Proof. decide equality. apply SceneType_eq_dec. Qed.

(** X7. The trip-complete scene is reached by the end-trip command only,
    never by a timer or a tick: in a run from a world that does not show it
    and whose scene-switch timers all lead to the card-scan scene (a fresh
    kiosk is one), the scene is shown at the end only if the run holds an
    end-trip command. *)
Theorem trip_complete_is_shown_only_by_end_trip :
  forall (evs : list (Env * Event)) (w : World),
    switches_only_to_card_scan w ->
    current_scene_type (scene_manager w) <> Some TRIP_COMPLETE ->
    current_scene_type (scene_manager (run evs w)) = Some TRIP_COMPLETE ->
    exists env, In (env, EndTripPressed) evs.
Proof.
  induction evs as [|[env ev] evs IH]; intros w Hinv Hnot H; cbn [run] in H.
  - contradiction.
  - destruct (scene_eq_dec (current_scene_type (scene_manager (final (step env ev w))))
                (Some TRIP_COMPLETE)) as [E|E].
    + exists env. left. rewrite (trip_complete_step env ev w Hinv Hnot E). reflexivity.
    + destruct (IH _ (switches_only_to_card_scan_step env ev w Hinv) E H) as [env' Hin].
      exists env'. right. exact Hin.
Qed.

Lemma trip_complete_is_shown_only_by_end_trip_witness :
  current_scene_type (scene_manager (run [(env_A 80, EndTripPressed)] world_pin_gate))
    = Some TRIP_COMPLETE
  /\ exists env, In (env, EndTripPressed) [(env_A 80, EndTripPressed)].
Proof.
  assert (H : current_scene_type
                (scene_manager (run [(env_A 80, EndTripPressed)] world_pin_gate))
              = Some TRIP_COMPLETE) by (vm_compute; reflexivity).
  split; [ exact H | ].
  apply (trip_complete_is_shown_only_by_end_trip
           [(env_A 80, EndTripPressed)] world_pin_gate); [ | | exact H ].
  - intros ms s Hin. vm_compute in Hin.
    repeat (destruct Hin as [Hin|Hin]; [ congruence | ]). destruct Hin.
  - vm_compute. discriminate.
Defined.

(** ** The boarding attempt, step by step *)

Lemma tick_is_ignored_while_reader_inactive : forall env w,
  door_status (workflow w) = true ->
  nfc_reader_active (workflow w) = false ->
  step env MonitorTimeout w = Ret tt w.
Proof.
  intros env w Hd Hr. exec. cbn.
  destruct (monitor_timer (workflow w)); [ | reflexivity ].
  cbn. rewrite Hd. cbn. rewrite Hr. reflexivity.
Qed.

(** X8. In PHASE_ONE with the window attached, a card that decodes to a
    registered identifier [i] starts exactly one fingerprint step: the
    finger-scan scene is shown with the success sound, the reader is
    switched off, the step for [i] is scheduled in 2000 ms and the roster
    is untouched; and while the door stays open, monitor ticks leave the
    kiosk as it is, whatever card is on the reader. *)
Theorem registered_card_starts_one_fingerprint_step :
  forall (env : Env) (w : World) (nfc_data i : string) (recs : list HajjRecord),
    current_phase (workflow w) = PHASE_ONE ->
    gui_window (workflow w) = true ->
    verify_nfc_data nfc_data (encryption_manager (workflow w)) = Val (Some i) ->
    i <> "" ->
    get_hajj_records env = Val recs ->
    existsb (fun record => String.eqb (hajj_id record) i) recs = true ->
    exists w',
      handle_nfc_detection env nfc_data w = Ret tt w'
      /\ current_scene_type (scene_manager w') = Some FINGER_SCAN
      /\ nfc_reader_active (workflow w') = false
      /\ sounds w' = (sounds w ++ [SuccessSound])%list
      /\ timers w' = (timers w ++ [(2000, CbHandleFingerprintVerification i)])%list
      /\ roster w' = roster w
      /\ current_phase (workflow w') = PHASE_ONE
      /\ (door_status (workflow w) = true ->
          forall envs : list Env,
            run (map (fun e => (e, MonitorTimeout)) envs) w' = w').
Proof.
  intros env w nfc_data i recs Hphase Hgui Hdec Hne Hrecs Hex.
  unfold roster. exec. rewrite Hphase. repeat (progress (cbn; rewrite ?Hgui)).
  rewrite Hdec. cbn.
  destruct i as [|c rest]; [ contradiction | ].
  cbn. rewrite Hrecs. cbn. cbn in Hex. rewrite Hex.
  repeat (progress (cbn; rewrite ?Hgui)).
  eexists. split; [ reflexivity | cbn ].
  repeat split; try assumption.
  intros Hdoor envs. induction envs as [|e envs IH]; [ reflexivity | ].
  cbn [map run]. rewrite tick_is_ignored_while_reader_inactive; [ exact IH | exact Hdoor | reflexivity ].
Qed.

Lemma registered_card_starts_one_fingerprint_step_witness :
  exists w',
    handle_nfc_detection (env_A 80) "H001" world_fresh = Ret tt w'
    /\ timers w' = [(2000, CbHandleFingerprintVerification "H001")]
    /\ run [(env_B, MonitorTimeout); (env_A 80, MonitorTimeout)] w' = w'.
Proof.
  destruct (registered_card_starts_one_fingerprint_step
              (env_A 80) world_fresh "H001" "H001" [record_H001]
              eq_refl eq_refl eq_refl)
    as [w' [Hrun [_ [_ [_ [Ht [_ [_ Hticks]]]]]]]];
    [ discriminate | reflexivity | reflexivity | ].
  exists w'. split; [ exact Hrun | split; [ exact Ht | ] ].
  exact (Hticks eq_refl [env_B; env_A 80]).
Defined.

(** X9. A registry that cannot be read while a card is checked is a card
    rejection, not a crash: in PHASE_ONE with the window attached, when the
    card decodes to an identifier and [get_hajj_records] raises,
    [handle_nfc_detection] returns on the card-failed scene with the
    failure sound, schedules the return to the card-scan scene only, and
    leaves the engine unchanged. *)
Theorem registry_failure_rejects_the_card :
  forall (env : Env) (w : World) (nfc_data i : string) (e : PyExn),
    current_phase (workflow w) = PHASE_ONE ->
    gui_window (workflow w) = true ->
    verify_nfc_data nfc_data (encryption_manager (workflow w)) = Val (Some i) ->
    get_hajj_records env = Raise e ->
    exists w',
      handle_nfc_detection env nfc_data w = Ret tt w'
      /\ current_scene_type (scene_manager w') = Some CARD_FAILED
      /\ sounds w' = (sounds w ++ [FailSound])%list
      /\ timers w' = (timers w ++ [(5000, CbSwitchToScene CARD_SCAN)])%list
      /\ workflow w' = workflow w.
Proof.
  intros env w nfc_data i e Hphase Hgui Hdec Hraise.
  exec. rewrite Hphase. repeat (progress (cbn; rewrite ?Hgui)).
  rewrite Hdec. cbn.
  destruct i as [|c rest].
  - repeat (progress (cbn; rewrite ?Hgui)).
    eexists. split; [ reflexivity | cbn; repeat split ].
  - cbn. rewrite Hraise. repeat (progress (cbn; rewrite ?Hgui)).
    eexists. split; [ reflexivity | cbn; repeat split ].
Qed.

(** A registry whose database cannot be opened. *)
Definition env_registry_down : Env :=
  {| get_hajj_records := Raise (RuntimeError "unable to open database file");
     finger := sensor_matching 12 80;
     read_nfc := Some "H001";
     now := 0; now_again := 0 |}.

Lemma registry_failure_rejects_the_card_witness :
  exists w',
    handle_nfc_detection env_registry_down "H001" world_fresh = Ret tt w'
    /\ current_scene_type (scene_manager w') = Some CARD_FAILED
    /\ workflow w' = workflow world_fresh.
Proof.
  destruct (registry_failure_rejects_the_card
              env_registry_down world_fresh "H001" "H001"
              (RuntimeError "unable to open database file")
              eq_refl eq_refl eq_refl eq_refl)
    as [w' [Hrun [Hs [_ [_ Hw]]]]].
  exists w'. split; [ exact Hrun | split; [ exact Hs | exact Hw ] ].
Defined.

Lemma verified_has_fingerprint_data : forall rec fp loc,
  fingerprint_data rec = Some fp ->
  py_int (dict_get "location" fp) = Val loc ->
  fingerprint_data_truthy rec = Some fp.
Proof.
  intros rec fp loc Hfp Hloc. unfold fingerprint_data_truthy. rewrite Hfp.
  destruct fp as [|entry rest]; [ discriminate | reflexivity ].
Qed.

(** X10. In PHASE_ONE with the window attached the fingerprint step
    always returns, on one of three scenes.  It is the success scene
    exactly when the identifier was verified against its own record.  On
    the finger-failed scene the return to the card-scan scene is scheduled
    in 3000 ms; on the access-denied scene (no record of the identifier,
    or a record without fingerprint data) nothing is scheduled.  On both,
    the roster is unchanged, one failure sound is played and the reader is
    active again. *)
Theorem fingerprint_step_has_three_outcomes :
  forall (env : Env) (i : string) (w : World),
    current_phase (workflow w) = PHASE_ONE ->
    gui_window (workflow w) = true ->
    exists w',
      handle_fingerprint_verification env i w = Ret tt w'
      /\ (verified_against_own_record env i ->
          current_scene_type (scene_manager w') = Some SUCCESS)
      /\ ((current_scene_type (scene_manager w') = Some SUCCESS
           /\ verified_against_own_record env i)
          \/ (current_scene_type (scene_manager w') = Some FINGER_FAILED
              /\ timers w' = (timers w ++ [(3000, CbSwitchToScene CARD_SCAN)])%list
              /\ roster w' = roster w
              /\ sounds w' = (sounds w ++ [FailSound])%list
              /\ nfc_reader_active (workflow w') = true)
          \/ (current_scene_type (scene_manager w') = Some ACCESS_DENIED
              /\ timers w' = timers w
              /\ roster w' = roster w
              /\ sounds w' = (sounds w ++ [FailSound])%list
              /\ nfc_reader_active (workflow w') = true
              /\ exists recs,
                   get_hajj_records env = Val recs
                   /\ (find (fun record => String.eqb (hajj_id record) i) recs = None
                       \/ exists rec,
                            find (fun record => String.eqb (hajj_id record) i) recs
                            = Some rec
                            /\ fingerprint_data_truthy rec = None))).
Proof.
  intros env i w Hphase Hgui.
  assert (Hret : exists w', handle_fingerprint_verification env i w = Ret tt w').
  { exec. rewrite Hphase. cbn.
    repeat (first [ progress (cbn; rewrite ?Hgui) | break_match ]);
      eexists; reflexivity. }
  destruct Hret as [w' Hrun]. exists w'. split; [ exact Hrun | ].
  split.
  - intros [recs [rec [fp [loc [r [Hrecs [Hfind [_ [_ [Hfp [Hloc [Hcheck _]]]]]]]]]]]].
    destruct (success_feedback env i w recs rec fp loc Hphase Hrecs Hfind
                (verified_has_fingerprint_data rec fp loc Hfp Hloc) Hloc r Hgui Hcheck)
      as [w2 [Hrun2 [Hs _]]].
    rewrite Hrun in Hrun2. inversion Hrun2. subst w2. exact Hs.
  - revert Hrun. unfold roster. exec. rewrite Hphase. cbn.
    repeat (first [ progress (cbn; rewrite ?Hgui) | break_match ]).
    all: intro Hrun; inversion Hrun; subst w'; clear Hrun; cbn.
    all: first
           [ solve [ right; left; repeat split ]
           | solve [ left; split; [ reflexivity | ];
                     match goal with
                     | Hf : find _ _ = Some ?h |- _ =>
                         destruct (find_by_hajj_id _ _ _ Hf) as [Hin Hid]
                     end;
                     unfold verified_against_own_record;
                     do 5 eexists; repeat split;
                     eauto using fingerprint_data_truthy_Some ]
           | solve [ right; right;
                     split; [ reflexivity | ]; split; [ reflexivity | ];
                     split; [ reflexivity | ]; split; [ reflexivity | ];
                     split; [ reflexivity | ];
                     eexists; split; [ reflexivity | ];
                     first [ left; assumption
                           | right; eexists; split; eassumption ] ] ].
Qed.

(** A registry in which H001 has no fingerprint data yet. *)
Definition env_not_enrolled : Env :=
  {| get_hajj_records :=
       Val [{| hajj_id := "H001"; name := Some "Amina"; fingerprint_data := None |}];
     finger := sensor_matching 12 80;
     read_nfc := Some "H001";
     now := 0; now_again := 0 |}.

Lemma fingerprint_step_has_three_outcomes_witness :
  exists w',
    handle_fingerprint_verification env_not_enrolled "H001" world_card_pending = Ret tt w'
    /\ current_scene_type (scene_manager w') = Some ACCESS_DENIED
    /\ timers w' = timers world_card_pending.
Proof.
  destruct (fingerprint_step_has_three_outcomes
              env_not_enrolled "H001" world_card_pending eq_refl eq_refl)
    as [w' [Hrun [_ Hcases]]].
  exists w'. split; [ exact Hrun | ].
  assert (Ew : w' = final (handle_fingerprint_verification env_not_enrolled "H001"
                             world_card_pending))
    by (rewrite Hrun; reflexivity).
  rewrite Ew. split; vm_compute; reflexivity.
Defined.


(** ** Departure and the end of the trip *)

(** X11. The monitor tick that finds the door closed stops the card
    polling: with the window attached it returns in PHASE_TWO on the PIN
    scene, with the monitor timer stopped and the reader inactive, the
    roster and the pending timers untouched; every later monitor tick
    leaves the kiosk as it is. *)
Theorem closed_door_stops_card_polling :
  forall (env : Env) (w : World),
    monitor_timer (workflow w) = true ->
    door_status (workflow w) = false ->
    gui_window (workflow w) = true ->
    exists w',
      step env MonitorTimeout w = Ret tt w'
      /\ current_phase (workflow w') = PHASE_TWO
      /\ monitor_timer (workflow w') = false
      /\ nfc_reader_active (workflow w') = false
      /\ current_scene_type (scene_manager w') = Some PIN_ENTRY
      /\ roster w' = roster w
      /\ timers w' = timers w
      /\ forall evs : list Env, run (map (fun e => (e, MonitorTimeout)) evs) w' = w'.
Proof.
  intros env w Hmon Hdoor Hgui. unfold roster. exec. cbn. rewrite Hmon. cbn.
  rewrite Hdoor. repeat (progress (cbn; rewrite ?Hgui)).
  eexists. split; [ reflexivity | cbn ]. repeat split.
  intro evs. induction evs as [|e evs IH]; [ reflexivity | ].
  cbn [map run]. exact IH.
Qed.

Lemma closed_door_stops_card_polling_witness :
  exists w',
    step (env_A 80) MonitorTimeout world_door_closed_mid_attempt = Ret tt w'
    /\ current_phase (workflow w') = PHASE_TWO
    /\ run [(env_A 80, MonitorTimeout); (env_B, MonitorTimeout)] w' = w'.
Proof.
  destruct (closed_door_stops_card_polling (env_A 80) world_door_closed_mid_attempt
              eq_refl eq_refl eq_refl)
    as [w' [Hrun [Hp [_ [_ [_ [_ [_ Hticks]]]]]]]].
  exists w'. split; [ exact Hrun | split; [ exact Hp | ] ].
  exact (Hticks [env_A 80; env_B]).
Defined.

Lemma perform_headcount_check_returns : forall camera n,
  exists r camera',
    perform_headcount_check n camera = Ret r camera'
    /\ scanned_count r = n
    /\ (success r = true -> detected_count r = n).
Proof.
  intros [cam|] n.
  - destruct (get_three_counts cam) as [counts cam'|e cam'] eqn:H.
    + eexists. eexists. split; [ apply (perform_headcount_check_sampled _ n _ _ H) | ].
      cbn. split; [ reflexivity | apply Z.eqb_eq ].
    + eexists. eexists. split; [ apply (perform_headcount_check_raised _ n _ _ H) | ].
      cbn. split; [ reflexivity | discriminate ].
  - eexists. eexists. split; [ reflexivity | ].
    cbn. split; [ reflexivity | discriminate ].
Qed.

(** X12. The headcount is advisory.  With the window attached
    [_perform_headcount] returns for every camera: it runs
    [perform_headcount_check] once, on the engine's camera and the length
    of the roster, leaves the camera as the check left it, shows the result
    scene with the check's [success] and the text built from its counts,
    and schedules [proceed_with_trip] with that [success] in 5000 ms; when
    that fires, the status bar reads "Trip started" on a match and
    "Warning: Headcount mismatch" otherwise.  Neither step changes the
    phase or the roster. *)
Theorem headcount_mismatch_does_not_block_the_trip :
  forall (w : World),
    gui_window (workflow w) = true ->
    exists w' r camera',
      perform_headcount_check (len (roster w)) (camera_manager (workflow w))
        = Ret r camera'
      /\ _perform_headcount w = Ret tt w'
      /\ camera_manager (workflow w') = camera'
      /\ current_scene_type (scene_manager w') = Some HEADCOUNT_RESULT
      /\ headcount_result (scene_manager w')
         = Some (success r,
                 "Headcount " ++ (if success r then "Verified" else "Mismatch")
                 ++ ": " ++ str_of_int (detected_count r)
                 ++ "/" ++ str_of_int (len (roster w)))
      /\ timers w' = (timers w ++ [(5000, CbProceedWithTrip (success r))])%list
      /\ roster w' = roster w
      /\ current_phase (workflow w') = current_phase (workflow w)
      /\ forall env, exists w'',
           fire env (CbProceedWithTrip (success r)) w' = Ret tt w''
           /\ window_status w''
              = (if success r then ("Trip started", MSG_SUCCESS)
                 else ("Warning: Headcount mismatch", MSG_WARNING))
           /\ roster w'' = roster w
           /\ current_phase (workflow w'') = current_phase (workflow w).
Proof.
  intros w Hgui. unfold roster.
  destruct (perform_headcount_check_returns (camera_manager (workflow w))
              (len (hajj_id_scans (workflow w)))) as [r [cam' [Hrun [Hn Hs]]]].
  exists (final (_perform_headcount w)), r, cam'.
  split; [ exact Hrun | ].
  exec. cbn. rewrite Hrun. repeat (progress (cbn; rewrite ?Hgui)).
  rewrite Hn.
  split; [ reflexivity | split; [ reflexivity | ] ].
  split; [ reflexivity | split; [ reflexivity | ] ].
  split; [ reflexivity | split; [ reflexivity | split; [ reflexivity | ] ] ].
  intro env. destruct (success r); repeat (progress (cbn; rewrite ?Hgui));
    eexists; (split; [ reflexivity | cbn; repeat split ]).
Qed.

(** A kiosk with a camera that sees three people at every capture and
    H001 aboard, in PHASE_TWO. *)
Definition world_with_camera : World :=
  run [(env_A 80, MonitorTimeout); (env_A 80, TimerFired 0);
       (env_A 80, ToggleDoorPressed); (env_A 80, MonitorTimeout)]
    (final (UserWorkflow_init
              (Some {| cap_read := fun _ => Detected 3; cap_pos := 0;
                       cap_isOpened := true |})
              None true true)).

(** A camera that sees three people at every capture, with H001 alone on
    the roster: the check reports a mismatch, 3 detected for 1 scanned. *)
Lemma headcount_mismatch_does_not_block_the_trip_witness :
  exists w' r camera',
    perform_headcount_check 1 (camera_manager (workflow world_with_camera))
      = Ret r camera'
    /\ _perform_headcount world_with_camera = Ret tt w'
    /\ success r = false
    /\ detected_count r = 3
    /\ headcount_result (scene_manager w') = Some (false, "Headcount Mismatch: 3/1")
    /\ current_phase (workflow w') = PHASE_TWO
    /\ roster w' = ["H001"].
Proof.
  destruct (headcount_mismatch_does_not_block_the_trip world_with_camera eq_refl)
    as [w' [r [camera' [Hcheck [Hrun [_ [_ [Hres [_ [Hr [Hp _]]]]]]]]]]].
  exists w', r, camera'.
  change (len (roster world_with_camera)) with 1 in Hcheck, Hres.
  split; [ exact Hcheck | split; [ exact Hrun | ] ].
  rewrite Hres, Hp, Hr. clear Hrun Hres Hp Hr.
  vm_compute in Hcheck. injection Hcheck as Er _. subst r.
  repeat split.
Defined.

(** X13. Ending a trip records it once.  With the window attached, and
    the registry readable when there are passengers to list, [end_trip]
    returns on the trip-complete scene; the trip log gains exactly one
    entry, under the current trip number, holding the roster, its length as
    passenger count, the first clock reading as end time and the end time
    minus the start time as duration; the scene shows the same data.  The
    start time is [trip_start_time], or, for a trip that was never
    started, a second clock reading taken after the end time, so that on a
    clock that does not run backwards the duration is then zero or
    negative.  The roster, the trip number and the phase are unchanged:
    only [reset_for_new_trip] clears and increments them. *)
Theorem end_trip_records_the_trip_once :
  forall (env : Env) (w : World),
    gui_window (workflow w) = true ->
    (roster w = [] \/ exists recs, get_hajj_records env = Val recs) ->
    exists w' d,
      end_trip env w = Ret tt w'
      /\ trip_log w' = (trip_log w ++ [(trip_number (workflow w), d)])%list
      /\ td_trip_number d = trip_number (workflow w)
      /\ td_hajj_ids d = roster w
      /\ td_passenger_count d = len (roster w)
      /\ td_end_time d = now env
      /\ td_start_time d = match trip_start_time (workflow w) with
                           | Some t => t
                           | None => now_again env
                           end
      /\ td_duration_seconds d = td_end_time d - td_start_time d
      /\ (trip_start_time (workflow w) = None -> now env <= now_again env ->
          td_duration_seconds d <= 0)
      /\ trip_info (scene_manager w') = Some d
      /\ current_scene_type (scene_manager w') = Some TRIP_COMPLETE
      /\ trip_end_time (workflow w') = Some (now env)
      /\ roster w' = roster w
      /\ trip_number (workflow w') = trip_number (workflow w)
      /\ current_phase (workflow w') = current_phase (workflow w).
Proof.
  intros env w Hgui Hreg. unfold roster in *. exec.
  repeat (progress (cbn; rewrite ?Hgui)).
  destruct (hajj_id_scans (workflow w)) as [|p ps] eqn:Hscans.
  - repeat (progress (cbn; rewrite ?Hgui)).
    eexists. eexists. split; [ reflexivity | cbn; rewrite ?Hscans; repeat split ].
    intros Hnone Hclock. rewrite Hnone. cbn. lia.
  - destruct Hreg as [Hreg|[recs Hrecs]]; [ discriminate | ].
    rewrite Hrecs. repeat (progress (cbn; rewrite ?Hgui)).
    eexists. eexists. split; [ reflexivity | cbn; rewrite ?Hscans; repeat split ].
    intros Hnone Hclock. rewrite Hnone. cbn. lia.
Qed.

Lemma end_trip_records_the_trip_once_witness :
  exists w' d,
    end_trip (env_A 80) world_pin_gate = Ret tt w'
    /\ trip_log w' = [(1, d)]
    /\ td_hajj_ids d = ["H001"]
    /\ td_passenger_count d = 1
    /\ roster w' = ["H001"].
Proof.
  destruct (end_trip_records_the_trip_once (env_A 80) world_pin_gate eq_refl)
    as [w' [d [Hrun [Hlog [_ [Hids [Hcount [_ [_ [_ [_ [_ [_ [_ [Hr _]]]]]]]]]]]]]]].
  - right. exists [record_H001]. reflexivity.
  - exists w', d. split; [ exact Hrun | ].
    rewrite Hlog, Hids, Hcount, Hr. repeat split.
Defined.

(** X14. When the registry cannot be read while the passenger list of a
    non-empty roster is formatted, [end_trip] (window attached) still
    returns: the status bar reads "Error ending trip" and the engine is
    back in PHASE_ONE with the monitor timer running and the reader
    active.  The trip was already logged and the camera released, and the
    roster and the trip number are kept as they were. *)
Theorem end_trip_failure_returns_to_boarding :
  forall (env : Env) (w : World) (e : PyExn),
    gui_window (workflow w) = true ->
    roster w <> [] ->
    get_hajj_records env = Raise e ->
    exists w',
      end_trip env w = Ret tt w'
      /\ window_status w' = ("Error ending trip", MSG_ERROR)
      /\ current_phase (workflow w') = PHASE_ONE
      /\ monitor_timer (workflow w') = true
      /\ nfc_reader_active (workflow w') = true
      /\ roster w' = roster w
      /\ trip_number (workflow w') = trip_number (workflow w)
      /\ List.length (trip_log w') = S (List.length (trip_log w))
      /\ trip_info (scene_manager w') = trip_info (scene_manager w)
      /\ camera_manager (workflow w') = cleanup_hardware (camera_manager (workflow w)).
Proof.
  intros env w e Hgui Hne Hraise. unfold roster in *. exec.
  repeat (progress (cbn; rewrite ?Hgui)).
  destruct (hajj_id_scans (workflow w)) as [|p ps] eqn:Hscans; [ contradiction | ].
  rewrite Hraise. repeat (progress (cbn; rewrite ?Hgui)).
  eexists. split; [ reflexivity | cbn; rewrite ?Hscans; repeat split ].
  rewrite length_app. cbn. lia.
Qed.

Lemma end_trip_failure_returns_to_boarding_witness :
  exists w',
    end_trip env_registry_down world_pin_gate = Ret tt w'
    /\ current_phase (workflow w') = PHASE_ONE
    /\ roster w' = ["H001"].
Proof.
  destruct (end_trip_failure_returns_to_boarding
              env_registry_down world_pin_gate
              (RuntimeError "unable to open database file") eq_refl)
    as [w' [Hrun [_ [Hp [_ [_ [Hr _]]]]]]]; [ discriminate | reflexivity | ].
  exists w'. split; [ exact Hrun | split; [ exact Hp | rewrite Hr; reflexivity ] ].
Defined.

Lemma cleanup_hardware_closes : forall camera cam,
  cleanup_hardware camera = Some cam -> cap_isOpened cam = false.
Proof.
  intros [c|] cam; cbn; [ | discriminate ].
  destruct (cap_isOpened c) eqn:E; intro H; inversion H; subst; cbn; trivial.
Qed.

(** X15. [end_trip] releases the camera and nothing reopens it: after a
    trip was ended and a new one started, every capture fails, so the
    headcount check detects 0 people and reports a match only for an empty
    roster. *)
Theorem headcount_after_first_trip_detects_nobody :
  forall (env : Env) (w : World) (cam : CameraManager) (n : Z),
    camera_manager (workflow (final (reset_for_new_trip (final (end_trip env w)))))
      = Some cam ->
    cap_isOpened cam = false
    /\ exists r cam',
         perform_headcount_check n (Some cam) = Ret r cam'
         /\ detected_count r = 0
         /\ (success r = true <-> n = 0).
Proof.
  intros env w cam n H.
  assert (Hclosed : cap_isOpened cam = false).
  { revert H. exec.
    repeat (first [ progress cbn | break_match ]);
      intro H; eapply cleanup_hardware_closes; exact H. }
  split; [ exact Hclosed | ].
  assert (Hcounts : get_three_counts cam
                    = Ret (0, 0, 0) (camera_advance (camera_advance (camera_advance cam)))).
  { unfold get_three_counts, capture_and_count_heads. unfold_monad.
    repeat (progress (cbn; rewrite ?Hclosed)). reflexivity. }
  eexists. eexists.
  split; [ apply (perform_headcount_check_sampled _ n _ _ Hcounts) | ].
  cbn [detected_count success]. change (max3 (0, 0, 0)) with 0.
  split; [ reflexivity | ].
  split; intro E.
  - apply Z.eqb_eq in E. lia.
  - apply Z.eqb_eq. lia.
Qed.

Lemma headcount_after_first_trip_detects_nobody_witness :
  exists cam r cam',
    camera_manager (workflow (final (reset_for_new_trip
                                       (final (end_trip (env_A 80) world_with_camera)))))
      = Some cam
    /\ perform_headcount_check 1 (Some cam) = Ret r cam'
    /\ detected_count r = 0.
Proof.
  eexists.
  assert (H : camera_manager
                (workflow (final (reset_for_new_trip
                                    (final (end_trip (env_A 80) world_with_camera)))))
              = Some {| cap_read := fun _ => Detected 3; cap_pos := 0;
                        cap_isOpened := false |})
    by reflexivity.
  destruct (headcount_after_first_trip_detects_nobody
              (env_A 80) world_with_camera _ 1 H) as [_ [r [cam' [Hrun [Hd _]]]]].
  exists r, cam'. split; [ exact H | split; [ exact Hrun | exact Hd ] ].
Defined.

(** ** The PIN entry *)

Lemma string_length_append : forall a b : string,
  String.length (a ++ b) = (String.length a + String.length b)%nat.
Proof.
  induction a as [|c a IH]; intro b; cbn; [ reflexivity | rewrite IH; reflexivity ].
Qed.

Lemma drop_last_length : forall s : string,
  (String.length (drop_last s) <= String.length s)%nat.
Proof.
  induction s as [|c s IH]; cbn; [ lia | ].
  destruct s as [|c' s']; cbn in *; lia.
Qed.

Lemma drop_last_append : forall (s : string) (c : ascii),
  drop_last (s ++ String c EmptyString) = s.
Proof.
  induction s as [|c' s IH]; intro c; cbn; [ reflexivity | ].
  rewrite IH. destruct s; reflexivity.
Qed.

(** The keys of the pad send one character each. *)
Definition one_key (ev : Event) : Prop :=
  match ev with
  | DigitPressed digit => String.length digit = 1%nat
  | _ => True
  end.

Lemma pin_length_step : forall env ev w,
  one_key ev ->
  (String.length (current_pin (pin_entry w)) <= 4)%nat ->
  (String.length (current_pin (pin_entry (final (step env ev w)))) <= 4)%nat.
Proof.
  intros env ev w Hkey Hlen. on_each_event ev w.
  all: exec_cases
         ltac:(solve [ cbn;
                       repeat match goal with
                              | H : current_pin _ = _ |- _ => rewrite H in *; clear H
                              end;
                       cbn in *;
                       first [ assumption | lia
                             | match goal with
                               | |- context [drop_last ?s] =>
                                   pose proof (drop_last_length s); cbn in *; lia
                               end ] ]).
  apply Nat.leb_le in Heqb. rewrite string_length_append. cbn in Hkey. lia.
Qed.

(** X16. The PIN being typed never grows beyond four characters: over
    any run whose digit keys send one character each, the entry stays at
    most four characters long. *)
Theorem pin_entry_holds_at_most_four_digits :
  forall (evs : list (Env * Event)) (w : World),
    Forall (fun e => one_key (snd e)) evs ->
    (String.length (current_pin (pin_entry w)) <= 4)%nat ->
    (String.length (current_pin (pin_entry (run evs w))) <= 4)%nat.
Proof.
  induction evs as [|[env ev] evs IH]; intros w Hkeys Hlen; cbn [run]; [ exact Hlen | ].
  inversion Hkeys as [|x l Hkey Hrest]; subst.
  apply IH; [ exact Hrest | ].
  apply pin_length_step; assumption.
Qed.

Lemma pin_entry_holds_at_most_four_digits_witness :
  (String.length (current_pin (pin_entry (type_pin ["1"; "2"; "3"; "4"; "5"; "6"]
                                            world_pin_gate))) <= 4)%nat
  /\ current_pin (pin_entry (type_pin ["1"; "2"; "3"; "4"; "5"; "6"] world_pin_gate))
     = "1234".
Proof.
  split; [ | vm_compute; reflexivity ].
  apply pin_entry_holds_at_most_four_digits.
  - repeat constructor.
  - vm_compute. apply le_0_n.
Defined.

(** X17. Backspace undoes a digit: when fewer than four characters are
    entered, pressing a one-character digit and then backspace gives back
    the entry as it was, with as many bullets shown as it has characters;
    with four characters entered, a further digit changes nothing. *)
Theorem backspace_undoes_a_digit :
  forall (w : World) (c : ascii),
    ((String.length (current_pin (pin_entry w)) < 4)%nat ->
     current_pin (pin_entry (final (backspace (final (add_digit (String c "") w)))))
       = current_pin (pin_entry w)
     /\ pin_display (pin_entry (final (backspace (final (add_digit (String c "") w)))))
        = String.length (current_pin (pin_entry w)))
    /\ ((4 <= String.length (current_pin (pin_entry w)))%nat ->
        pin_entry (final (add_digit (String c "") w)) = pin_entry w).
Proof.
  intros w c. split.
  - intro Hlen. apply Nat.ltb_lt in Hlen. exec. cbn in *. rewrite Hlen. cbn.
    destruct (current_pin (pin_entry w) ++ String c "") eqn:E.
    + destruct (current_pin (pin_entry w)); discriminate.
    + rewrite <- E. rewrite drop_last_append. cbn. split; reflexivity.
  - intro Hlen. apply Nat.ltb_ge in Hlen. exec. cbn in *. rewrite Hlen. reflexivity.
Qed.

Lemma backspace_undoes_a_digit_witness :
  current_pin (pin_entry (final (backspace (final (add_digit "7"
                                                     (type_pin ["1"; "2"] world_pin_gate))))))
    = "12"
  /\ pin_entry (final (add_digit "7" (type_pin ["1"; "2"; "3"; "4"] world_pin_gate)))
     = pin_entry (type_pin ["1"; "2"; "3"; "4"] world_pin_gate).
Proof.
  destruct (backspace_undoes_a_digit (type_pin ["1"; "2"] world_pin_gate) "7"%char)
    as [Hundo _].
  destruct (backspace_undoes_a_digit (type_pin ["1"; "2"; "3"; "4"] world_pin_gate) "7"%char)
    as [_ Hfull].
  split.
  - destruct Hundo as [E _]; [ vm_compute; repeat constructor | ].
    rewrite E. vm_compute. reflexivity.
  - apply Hfull. vm_compute. repeat constructor.
Defined.


(* ================================================================== *)
(** * The fingerprint sensor *)

(** X18. [wait_for_finger] reports a finger exactly when some poll of
    [get_image] answers OK and every poll before it answered NOFINGER; a
    window of NOFINGER polls only is the timeout. *)
Theorem wait_for_finger_finds_the_first_image :
  forall (polls : list (exc Z)),
    (wait_for_finger polls = Val true <->
     exists k rest, polls = (repeat (Val NOFINGER) k ++ Val OK :: rest)%list)
    /\ (forall k, wait_for_finger (repeat (Val NOFINGER) k) = Val false)
    /\ (forall k code rest,
          code <> OK -> code <> NOFINGER ->
          wait_for_finger (repeat (Val NOFINGER) k ++ Val code :: rest) = Val false).
Proof.
  intro polls. split; [ split | split ].
  - induction polls as [|[code|e] polls IH]; cbn; intro H; try discriminate.
    destruct (code =? OK) eqn:Eok.
    + apply Z.eqb_eq in Eok. subst code. exists 0%nat, polls. reflexivity.
    + destruct (code =? NOFINGER) eqn:Eno; [ | discriminate ].
      apply Z.eqb_eq in Eno. subst code.
      destruct (IH H) as [k [rest E]]. exists (S k), rest. rewrite E. reflexivity.
  - intros [k [rest E]]. subst polls. induction k as [|k IH]; cbn; [ reflexivity | exact IH ].
  - induction k as [|k IH]; cbn; [ reflexivity | exact IH ].
  - intros k code rest Hok Hno. induction k as [|k IH]; cbn; [ | exact IH ].
    apply Z.eqb_neq in Hok. apply Z.eqb_neq in Hno. rewrite Hok, Hno. reflexivity.
Qed.

(** X19. [check_specific_finger] returns a match exactly when a finger
    was placed, its image converted, the template at the requested
    location loaded and the comparison succeeded; the match then names that
    location and carries the sensor's confidence register, so no other
    template decides the outcome.  Otherwise there is no match: the result
    is [None] when no finger was placed or one of the three commands did
    not answer OK, and the exception of a failed [get_image] poll, which
    the method does not catch, reaches the caller. *)
Theorem check_specific_finger_compares_with_the_requested_template :
  forall (f : Adafruit_Fingerprint) (location : Z),
    (forall r : FingerMatch,
       check_specific_finger f location = Val (Some r) <->
       wait_for_finger (get_image f) = Val true
       /\ image_2_tz f = OK
       /\ load_model f location = OK
       /\ compare_templates f = OK
       /\ r = {| matched := true; template_id := location;
                 confidence := finger_confidence f |})
    /\ (check_specific_finger f location = Val None <->
        wait_for_finger (get_image f) = Val false
        \/ (wait_for_finger (get_image f) = Val true
            /\ (image_2_tz f <> OK \/ load_model f location <> OK
                \/ compare_templates f <> OK)))
    /\ (forall e : PyExn,
          wait_for_finger (get_image f) = Raise e ->
          check_specific_finger f location = Raise e).
Proof.
  intros f location. unfold check_specific_finger. unfold_monad.
  destruct (wait_for_finger (get_image f)) as [[|]|e0]; cbn.
  - destruct (Z.eqb_spec (image_2_tz f) OK) as [E1|E1]; cbn;
      [ destruct (Z.eqb_spec (load_model f location) OK) as [E2|E2]; cbn;
        [ destruct (Z.eqb_spec (compare_templates f) OK) as [E3|E3]; cbn | ] | ].
    + split; [ | split ].
      * intro r. split.
        -- intro H. injection H as <-. repeat split; assumption.
        -- intros [_ [_ [_ [_ ->]]]]. reflexivity.
      * split; [ discriminate | ].
        intros [H|[_ [H|[H|H]]]]; [ discriminate | contradiction .. ].
      * intro e. discriminate.
    + split; [ | split ].
      * intro r. split; [ discriminate | intros [_ [_ [_ [H _]]]]; contradiction ].
      * split; [ intros _; right; split; [ reflexivity | right; right; exact E3 ]
               | reflexivity ].
      * intro e. discriminate.
    + split; [ | split ].
      * intro r. split; [ discriminate | intros [_ [_ [H _]]]; contradiction ].
      * split; [ intros _; right; split; [ reflexivity | right; left; exact E2 ]
               | reflexivity ].
      * intro e. discriminate.
    + split; [ | split ].
      * intro r. split; [ discriminate | intros [_ [H _]]; contradiction ].
      * split; [ intros _; right; split; [ reflexivity | left; exact E1 ]
               | reflexivity ].
      * intro e. discriminate.
  - split; [ | split ].
    + intro r. split; [ discriminate | intros [H _]; discriminate ].
    + split; [ intros _; left; reflexivity | reflexivity ].
    + intro e. discriminate.
  - split; [ | split ].
    + intro r. split; [ discriminate | intros [H _]; discriminate ].
    + split; [ discriminate | intros [H|[H _]]; discriminate ].
    + intros e H. injection H as ->. reflexivity.
Qed.

Lemma verify_fingerprint_accepts : forall f records i,
  verify_fingerprint f records i = Val true ->
  wait_for_finger (get_image f) = Val true
  /\ image_2_tz f = OK
  /\ finger_search f = OK
  /\ min_confidence <= finger_confidence f
  /\ exists recs rec fp,
       records = Val recs /\ In rec recs
       /\ hajj_id rec = i
       /\ fingerprint_data_truthy rec = Some fp
       /\ dict_get "location" fp = JStr (str_of_int (finger_id f)).
Proof.
  intros f records i. unfold verify_fingerprint, search_fingerprint. unfold_monad.
  destruct (wait_for_finger (get_image f)) as [[|]|]; cbn; try discriminate.
  destruct (image_2_tz f =? OK) eqn:E1; cbn; [ | discriminate ].
  destruct (finger_search f =? OK) eqn:E2; cbn; [ | discriminate ].
  destruct (min_confidence <=? finger_confidence f) eqn:E3; cbn; [ | discriminate ].
  destruct records as [recs|e]; cbn; [ | discriminate ].
  intro H. injection H as Hex. apply existsb_exists in Hex.
  destruct Hex as [rec [Hin Hm]]. unfold record_matches in Hm.
  destruct (fingerprint_data_truthy rec) as [fp|] eqn:Efp; [ | discriminate ].
  destruct (dict_get "location" fp) as [ |z|loc] eqn:Eloc; try discriminate.
  apply andb_true_iff in Hm. destruct Hm as [Hl Hi].
  apply String.eqb_eq in Hl, Hi. apply Z.eqb_eq in E1, E2. apply Z.leb_le in E3.
  repeat split; try assumption.
  exists recs, rec, fp. subst loc. repeat split; first [ reflexivity | assumption ].
Qed.

(** X20. [verify_fingerprint] never raises, and it answers True exactly
    when the open search found a finger with confidence at least 50 and the
    registry, read without error, holds a record of the given identifier
    whose stored location is the text of the found template number. *)
Theorem verify_fingerprint_needs_confidence_and_a_matching_record :
  forall (f : Adafruit_Fingerprint) (records : exc (list HajjRecord)) (i : string),
    (exists b, verify_fingerprint f records i = Val b)
    /\ (verify_fingerprint f records i = Val true <->
        wait_for_finger (get_image f) = Val true
        /\ image_2_tz f = OK
        /\ finger_search f = OK
        /\ min_confidence <= finger_confidence f
        /\ exists recs rec fp,
             records = Val recs /\ In rec recs
             /\ hajj_id rec = i
             /\ fingerprint_data_truthy rec = Some fp
             /\ dict_get "location" fp = JStr (str_of_int (finger_id f))).
Proof.
  intros f records i. split.
  - unfold verify_fingerprint, search_fingerprint. unfold_monad.
    repeat (break_match; cbn); eexists; reflexivity.
  - split; [ apply verify_fingerprint_accepts | ].
    unfold verify_fingerprint, search_fingerprint. unfold_monad.
    + intros [Hw [H1 [H2 [H3 [recs [rec [fp [Hr [Hin [Hi [Hfp Hloc]]]]]]]]]]].
      rewrite Hw. cbn. rewrite H1, H2. cbn. apply Z.leb_le in H3. rewrite H3.
      subst records. cbn. f_equal. apply existsb_exists. exists rec.
      split; [ exact Hin | ]. unfold record_matches. rewrite Hfp, Hloc.
      rewrite String.eqb_refl. cbn. apply String.eqb_eq. exact Hi.
Qed.

(* ================================================================== *)
(** * logic/admin_app.py: the next free fingerprint location *)

(** Truth value of a JSON value. *)
Definition truthy_jval (v : JVal) : bool :=
  match v with
  | JNull => false
  | JNum z => negb (z =? 0)
  | JStr s => negb (String.eqb s "")
  end.

(** The location one record contributes to [used_locations]: its
    fingerprint data and its location must be truthy, [int()] must not
    raise [ValueError] or [TypeError], and the number must lie in 1..120. *)
Definition used_location (record : HajjRecord) : option Z :=
  match fingerprint_data_truthy record with
  | Some fp =>
      if truthy_jval (dict_get "location" fp) then
        match py_int (dict_get "location" fp) with
        | Val location =>
            if ((1 <=? location) && (location <=? 120))%bool then Some location else None
        | Raise _ => None
        end
      else None
  | None => None
  end.

(** The set [used_locations], in the order of the records. *)
Fixpoint used_locations (hajj_records : list HajjRecord) : list Z :=
  match hajj_records with
  | [] => []
  | record :: rest =>
      match used_location record with
      | Some location => location :: used_locations rest
      | None => used_locations rest
      end
  end.

(** [for location in range(from, from + count)]: the first one not used. *)
Fixpoint first_unused (used : list Z) (from : Z) (count : nat) : option Z :=
  match count with
  | O => None
  | S count' =>
      if existsb (Z.eqb from) used then first_unused used (from + 1) count'
      else Some from
  end.

(** [AdminAppGUI.get_next_available_location]; a registry that cannot be
    read gives [None]. *)
Definition get_next_available_location (get_hajj_records : exc (list HajjRecord))
  : option Z :=
  match get_hajj_records with
  | Val hajj_records => first_unused (used_locations hajj_records) 1 120
  | Raise _ => None
  end.

Lemma first_unused_spec : forall used count from,
  match first_unused used from count with
  | Some location =>
      from <= location < from + Z.of_nat count
      /\ ~ In location used
      /\ forall m, from <= m < location -> In m used
  | None => forall m, from <= m < from + Z.of_nat count -> In m used
  end.
Proof.
  intros used count. induction count as [|count IH]; intro from; cbn [first_unused].
  - intros m Hm. lia.
  - destruct (existsb (Z.eqb from) used) eqn:E.
    + apply existsb_exists in E. destruct E as [x [Hin Hx]].
      apply Z.eqb_eq in Hx. subst x.
      specialize (IH (from + 1)).
      destruct (first_unused used (from + 1) count) as [location|].
      * destruct IH as [Hr [Hn Hmin]]. split; [ lia | split; [ exact Hn | ] ].
        intros m Hm. destruct (Z.eq_dec m from) as [->|Hne]; [ exact Hin | ].
        apply Hmin. lia.
      * intros m Hm. destruct (Z.eq_dec m from) as [->|Hne]; [ exact Hin | ].
        apply IH. lia.
    + split; [ lia | split; [ | intros m Hm; lia ] ].
      intro Hin. assert (existsb (Z.eqb from) used = true) as Ht.
      { apply existsb_exists. exists from. split; [ exact Hin | apply Z.eqb_refl ]. }
      congruence.
Qed.

Lemma used_locations_spec : forall hajj_records location,
  In location (used_locations hajj_records) <->
  exists record, In record hajj_records /\ used_location record = Some location.
Proof.
  induction hajj_records as [|record rest IH]; intro location; cbn [used_locations].
  - split; [ intros [] | intros [r [[] _]] ].
  - destruct (used_location record) as [l|] eqn:E.
    + split.
      * intros [<-|H]; [ exists record; split; [ left; reflexivity | exact E ] | ].
        apply IH in H. destruct H as [r [Hin Hr]]. exists r. split; [ right | ]; assumption.
      * intros [r [[<-|Hin] Hr]]; [ left; congruence | right ].
        apply IH. exists r. split; assumption.
    + rewrite IH. split.
      * intros [r [Hin Hr]]. exists r. split; [ right | ]; assumption.
      * intros [r [[<-|Hin] Hr]]; [ congruence | ]. exists r. split; assumption.
Qed.

(** X22. [get_next_available_location] returns the smallest location in
    1..120 that no record of the registry uses; it returns [None] exactly
    when the registry cannot be read or all 120 locations are used.  Records
    whose location is missing, empty, not a number or outside 1..120 use
    nothing. *)
Theorem next_available_location_is_the_smallest_unused :
  forall (hajj_records : list HajjRecord),
    match get_next_available_location (Val hajj_records) with
    | Some location =>
        1 <= location <= 120
        /\ (forall record, In record hajj_records ->
                           used_location record <> Some location)
        /\ (forall m, 1 <= m < location ->
                      exists record, In record hajj_records
                                     /\ used_location record = Some m)
    | None =>
        forall m, 1 <= m <= 120 ->
                  exists record, In record hajj_records /\ used_location record = Some m
    end
    /\ (forall e, get_next_available_location (Raise e) = None).
Proof.
  intro hajj_records. split; [ | reflexivity ].
  unfold get_next_available_location.
  pose proof (first_unused_spec (used_locations hajj_records) 120 1) as H.
  destruct (first_unused (used_locations hajj_records) 1 120) as [location|].
  - destruct H as [Hr [Hn Hmin]]. split; [ lia | split ].
    + intros record Hin Hu. apply Hn. apply used_locations_spec.
      exists record. split; assumption.
    + intros m Hm. apply used_locations_spec. apply Hmin. lia.
  - intros m Hm. apply used_locations_spec. apply H. lia.
Qed.

(** The first two locations are taken; a third record has no usable
    location. *)
Example next_available_location_skips_used :
  get_next_available_location
    (Val [{| hajj_id := "H001"; name := None;
             fingerprint_data := Some [("location", JStr "1")] |};
          {| hajj_id := "H002"; name := None;
             fingerprint_data := Some [("location", JStr "2")] |};
          {| hajj_id := "H003"; name := None;
             fingerprint_data := Some [("location", JStr "x")] |};
          {| hajj_id := "H004"; name := None;
             fingerprint_data := Some [("location", JStr "121")] |}])
  = Some 3.
Proof. reflexivity. Qed.

(** Every location the enrollment can hand out is written by [str] as
    a non-empty text that [int] reads back as the same number. *)
Lemma location_reads_back : forall location : Z,
  1 <= location <= 120 ->
  int_of_str (str_of_int location) = Some location
  /\ str_of_int location <> "".
Proof.
  intros location Hrange.
  assert (Hall : forallb (fun z => match int_of_str (str_of_int z) with
                                   | Some z' => (z' =? z) && negb (String.eqb (str_of_int z) "")
                                   | None => false
                                   end)
                   (map Z.of_nat (seq 1 120)) = true) by (vm_compute; reflexivity).
  rewrite forallb_forall in Hall. specialize (Hall location).
  assert (Hin : In location (map Z.of_nat (seq 1 120))).
  { apply in_map_iff. exists (Z.to_nat location). split; [ lia | apply in_seq; lia ]. }
  specialize (Hall Hin).
  destruct (int_of_str (str_of_int location)) as [z'|]; [ | discriminate ].
  apply andb_true_iff in Hall. destruct Hall as [Hz Hs].
  apply Z.eqb_eq in Hz. subst z'. split; [ reflexivity | ].
  intro E. rewrite E in Hs. discriminate.
Qed.

(** X21. A location is not handed out twice.  When
    [get_next_available_location] returns a location and the enrollment
    stores it as [str(location)] in a record's fingerprint data, as
    [_assign_fingerprint] does, the record uses that location: on every
    registry that holds the record, [get_next_available_location] returns
    another location or [None]; and the [int()] of the fingerprint step
    reads the same location back, so the finger is compared with the
    template the enrollment wrote. *)
Theorem assigned_location_is_not_assigned_again :
  forall (hajj_records : list HajjRecord) (location : Z)
         (enrolled : HajjRecord) (others : JObject),
    get_next_available_location (Val hajj_records) = Some location ->
    fingerprint_data enrolled
      = Some (("location", JStr (str_of_int location)) :: others) ->
    used_location enrolled = Some location
    /\ (exists fp, fingerprint_data_truthy enrolled = Some fp
                   /\ py_int (dict_get "location" fp) = Val location)
    /\ forall hajj_records' : list HajjRecord,
         In enrolled hajj_records' ->
         get_next_available_location (Val hajj_records') <> Some location.
Proof.
  intros hajj_records location enrolled others Hnext Hfp.
  assert (Hrange : 1 <= location <= 120).
  { unfold get_next_available_location in Hnext.
    pose proof (first_unused_spec (used_locations hajj_records) 120 1) as H.
    rewrite Hnext in H. lia. }
  destruct (location_reads_back location Hrange) as [Hint Hstr].
  assert (Htruthy : fingerprint_data_truthy enrolled
                    = Some (("location", JStr (str_of_int location)) :: others)).
  { unfold fingerprint_data_truthy. rewrite Hfp. reflexivity. }
  assert (Hread : py_int (dict_get "location"
                            (("location", JStr (str_of_int location)) :: others))
                  = Val location).
  { cbn [dict_get]. rewrite String.eqb_refl. cbn [py_int]. rewrite Hint. reflexivity. }
  assert (Hused : used_location enrolled = Some location).
  { unfold used_location. rewrite Htruthy, Hread.
    cbn [dict_get]. rewrite String.eqb_refl. cbn [truthy_jval].
    apply String.eqb_neq in Hstr. rewrite Hstr. cbn [negb].
    replace (1 <=? location) with true by (symmetry; apply Z.leb_le; lia).
    replace (location <=? 120) with true by (symmetry; apply Z.leb_le; lia).
    reflexivity. }
  split; [ exact Hused | split ].
  - eexists. split; [ exact Htruthy | exact Hread ].
  - intros hajj_records' Hin Hagain.
    unfold get_next_available_location in Hagain.
    pose proof (first_unused_spec (used_locations hajj_records') 120 1) as H.
    rewrite Hagain in H. destruct H as [_ [Hfree _]].
    apply Hfree. apply used_locations_spec. exists enrolled. split; assumption.
Qed.

(** Locations 1 and 2 are taken; H003 is enrolled at 3, and the next
    enrollment is given 4. *)
Definition registry_two_enrolled : list HajjRecord :=
  [{| hajj_id := "H001"; name := None;
      fingerprint_data := Some [("location", JStr "1")] |};
   {| hajj_id := "H002"; name := None;
      fingerprint_data := Some [("location", JStr "2")] |}].

Definition record_H003_enrolled : HajjRecord :=
  {| hajj_id := "H003"; name := None;
     fingerprint_data := Some [("location", JStr "3"); ("template", JStr "00")] |}.

Lemma assigned_location_is_not_assigned_again_witness :
  get_next_available_location (Val registry_two_enrolled) = Some 3
  /\ used_location record_H003_enrolled = Some 3
  /\ py_int (dict_get "location" [("location", JStr "3"); ("template", JStr "00")])
     = Val 3
  /\ get_next_available_location
       (Val (registry_two_enrolled ++ [record_H003_enrolled])%list) = Some 4.
Proof.
  destruct (assigned_location_is_not_assigned_again registry_two_enrolled 3
              record_H003_enrolled [("template", JStr "00")] eq_refl eq_refl)
    as [Hused [[fp [Hfp Hread]] _]].
  injection Hfp as <-.
  split; [ reflexivity | split; [ exact Hused | split; [ exact Hread | reflexivity ] ] ].
Defined.

(* ================================================================== *)
(** * hardware/nfc_pn532.py: writing a card block *)

(** The [data] argument of [write_block]: a [str] or [bytes]. *)
Inductive BlockData : Type :=
| StrData (s : string)
| BytesData (b : list Z).

(** [s.encode('utf-8')] on a string held as its bytes. *)
Definition encode (s : string) : list Z :=
  map (fun c => Z.of_nat (nat_of_ascii c)) (list_ascii_of_string s).

(** [data[:16].ljust(16, b'\x00')] *)
Definition block16 (data : list Z) : list Z :=
  firstn 16 data ++ repeat 0 (16 - List.length (firstn 16 data)).
Arguments block16 : simpl never.

(** What the reader answers during one [write_block]: the polls of
    [read_passive_target] that fit in the 5 s window, whether the block
    authenticates, and what writing a block returns. *)
Record PN532 : Type := {
  read_passive_target : list (exc (option (list Z)));
  mifare_classic_authenticate_block : list Z -> Z -> exc bool;
  mifare_classic_write_block : Z -> list Z -> exc bool
}.

(** [PN532NFC.wait_for_card]: the first poll that gives a UID. *)
Fixpoint wait_for_card (polls : list (exc (option (list Z)))) : exc (option (list Z)) :=
  match polls with
  | [] => Val None
  | Raise e :: _ => Raise e
  | Val (Some (b :: uid)) :: _ => Val (Some (b :: uid))
  | Val _ :: rest => wait_for_card rest
  end.

(** [PN532NFC.write_block] *)
Definition write_block (pn532 : PN532) (block_number : Z) (data : BlockData) : exc bool :=
  exc_try
    (card <~ wait_for_card (read_passive_target pn532) ;;
     match card with
     | None => Val false
     | Some uid =>
         let bytes := match data with
                      | StrData s => encode s
                      | BytesData b => b
                      end in
         let block := block16 bytes in
         authenticated <~ mifare_classic_authenticate_block pn532 uid block_number ;;
         if negb authenticated then Val false
         else mifare_classic_write_block pn532 block_number block
     end)
    (fun _ => Val false).

Lemma block16_length : forall data, List.length (block16 data) = 16%nat.
Proof.
  intro data. unfold block16. rewrite length_app, repeat_length.
  pose proof (firstn_le_length 16 data). lia.
Qed.

Lemma block16_short : forall data,
  (List.length data <= 16)%nat ->
  block16 data = (data ++ repeat 0 (16 - List.length data))%list.
Proof.
  intros data H. unfold block16. rewrite firstn_all2 by exact H. reflexivity.
Qed.

Lemma block16_long : forall data,
  (16 <= List.length data)%nat -> block16 data = firstn 16 data.
Proof.
  intros data H. unfold block16. rewrite length_firstn.
  replace (16 - Nat.min 16 (List.length data))%nat with 0%nat by lia.
  apply app_nil_r.
Qed.

(** X23. [write_block] never raises and always hands the card a block of
    exactly 16 bytes: it answers True only when a card was found, the block
    authenticated and the chip accepted the 16-byte block made from the
    data.  Short data is padded with zero bytes and keeps its content;
    longer data is cut after 16 bytes, so two payloads with the same first
    16 bytes write the same block. *)
Theorem write_block_writes_sixteen_bytes :
  forall (pn532 : PN532) (block_number : Z) (data : list Z),
    (exists b, write_block pn532 block_number (BytesData data) = Val b)
    /\ (write_block pn532 block_number (BytesData data) = Val true ->
        exists uid,
          wait_for_card (read_passive_target pn532) = Val (Some uid)
          /\ mifare_classic_authenticate_block pn532 uid block_number = Val true
          /\ mifare_classic_write_block pn532 block_number (block16 data) = Val true)
    /\ List.length (block16 data) = 16%nat
    /\ block16 (block16 data) = block16 data
    /\ ((List.length data <= 16)%nat ->
        firstn (List.length data) (block16 data) = data)
    /\ (forall other, firstn 16 other = firstn 16 data ->
                      write_block pn532 block_number (BytesData other)
                      = write_block pn532 block_number (BytesData data)).
Proof.
  intros pn532 block_number data.
  split; [ | split; [ | split; [ apply block16_length | split; [ | split ] ] ] ].
  - unfold write_block. unfold_monad.
    repeat (break_match; cbn); eexists; reflexivity.
  - unfold write_block. unfold_monad.
    destruct (wait_for_card (read_passive_target pn532)) as [[uid|]|]; cbn; try discriminate.
    destruct (mifare_classic_authenticate_block pn532 uid block_number) as [[|]|] eqn:Ea;
      cbn; try discriminate.
    destruct (mifare_classic_write_block pn532 block_number (block16 data)) as [[|]|] eqn:Ew;
      cbn; try discriminate.
    intros _. exists uid. repeat split; first [ reflexivity | assumption ].
  - rewrite (block16_long (block16 data)) by (rewrite block16_length; lia).
    apply firstn_all2. rewrite block16_length. lia.
  - intro H. rewrite (block16_short data H). rewrite firstn_app.
    rewrite Nat.sub_diag. cbn [firstn]. rewrite app_nil_r. apply firstn_all.
  - intros other H. unfold write_block, block16. rewrite H. reflexivity.
Qed.

Lemma write_block_writes_sixteen_bytes_witness :
  block16 [72; 48; 48; 49] = [72; 48; 48; 49; 0; 0; 0; 0; 0; 0; 0; 0; 0; 0; 0; 0]
  /\ firstn 4 (block16 [72; 48; 48; 49]) = [72; 48; 48; 49].
Proof.
  destruct (write_block_writes_sixteen_bytes
              {| read_passive_target := []; 
                 mifare_classic_authenticate_block := fun _ _ => Val true;
                 mifare_classic_write_block := fun _ _ => Val true |}
              4 [72; 48; 48; 49]) as [_ [_ [_ [_ [Hkeep _]]]]].
  split; [ reflexivity | ].
  apply Hkeep. cbn. lia.
Defined.

(* ================================================================== *)
(** * Scenes, the admin's fingerprint check, and the camera *)

(** X24. [SceneManager.switch_to_scene] never ignores a request: every
    scene type has a scene, so the requested scene becomes the current one;
    the engine's slot then switches the reader on for the card-scan scene
    and off for the finger-scan scene and leaves it alone for every other
    scene (and always, when no engine is connected).  Nothing else of the
    engine changes. *)
Theorem switch_to_scene_always_switches :
  forall (scene_type : SceneType) (w : World),
    exists w',
      switch_to_scene scene_type w = Ret tt w'
      /\ current_scene_type (scene_manager w') = Some scene_type
      /\ nfc_reader_active (workflow w')
         = (if gui_window (workflow w)
            then match scene_type with
                 | CARD_SCAN => true
                 | FINGER_SCAN => false
                 | _ => nfc_reader_active (workflow w)
                 end
            else nfc_reader_active (workflow w))
      /\ roster w' = roster w
      /\ current_phase (workflow w') = current_phase (workflow w)
      /\ timers w' = timers w.
Proof.
  intros scene_type w. unfold roster.
  destruct scene_type; exec; cbn;
    destruct (gui_window (workflow w)) eqn:Hgui; cbn;
    eexists; (split; [ reflexivity | cbn; rewrite ?Hgui; repeat split ]).
Qed.

(** [AdminFingerprint.check_fingerprint_in_db]: the identifier of the
    first record stored at the location the open search found. *)
Definition stored_at (fp_id : Z) (record : HajjRecord) : bool :=
  match fingerprint_data_truthy record with
  | Some fp =>
      match dict_get "location" fp with
      | JStr loc => String.eqb loc (str_of_int fp_id)
      | _ => false
      end
  | None => false
  end.

Definition check_fingerprint_in_db (logged_in_username : option string)
    (f : Adafruit_Fingerprint) (get_hajj_records : exc (list HajjRecord))
  : exc (option string) :=
  match truthy_str logged_in_username with
  | None => Val None
  | Some _ =>
      exc_try
        (found_fp <~ search_fingerprint f ;;
         match found_fp with
         | (true, Some fp_id, _) =>
             hajj_records <~ get_hajj_records ;;
             Val (option_map hajj_id (find (stored_at fp_id) hajj_records))
         | _ => Val None
         end)
        (fun _ => Val None)
  end.

(** X25. [check_fingerprint_in_db] never raises and answers nothing to
    an admin who is not logged in.  An identifier it returns belongs to a
    record of the registry stored at the location the sensor found.  And
    whenever [verify_fingerprint] accepts a finger for some identifier, a
    logged-in admin's check of the same finger against the same registry
    names a passenger too. *)
Theorem check_fingerprint_in_db_agrees_with_verification :
  forall (user : option string) (f : Adafruit_Fingerprint)
         (records : exc (list HajjRecord)),
    (exists answer, check_fingerprint_in_db user f records = Val answer)
    /\ check_fingerprint_in_db None f records = Val None
    /\ check_fingerprint_in_db (Some "") f records = Val None
    /\ (forall i, check_fingerprint_in_db user f records = Val (Some i) ->
                  exists recs rec,
                    records = Val recs /\ In rec recs /\ hajj_id rec = i
                    /\ stored_at (finger_id f) rec = true
                    /\ finger_search f = OK)
    /\ (forall i name, user = Some name -> name <> "" ->
                       verify_fingerprint f records i = Val true ->
                       exists j, check_fingerprint_in_db user f records = Val (Some j)).
Proof.
  intros user f records.
  split; [ | split; [ reflexivity | split; [ reflexivity | split ] ] ].
  - unfold check_fingerprint_in_db, search_fingerprint. unfold_monad.
    repeat (break_match; cbn); eexists; reflexivity.
  - intro i. unfold check_fingerprint_in_db, search_fingerprint. unfold_monad.
    destruct (truthy_str user); [ | discriminate ].
    destruct (wait_for_finger (get_image f)) as [[|]|]; cbn; try discriminate.
    destruct (image_2_tz f =? OK); cbn; [ | discriminate ].
    destruct (finger_search f =? OK) eqn:Es; cbn; [ | discriminate ].
    destruct records as [recs|e]; cbn; [ | discriminate ].
    destruct (find (stored_at (finger_id f)) recs) as [rec|] eqn:Ef; cbn; [ | discriminate ].
    intro H. injection H as Hi. apply find_some in Ef. destruct Ef as [Hin Hs].
    exists recs, rec. apply Z.eqb_eq in Es. repeat split; assumption.
  - intros i name Hu Hne Hv. subst user.
    apply verify_fingerprint_accepts in Hv.
    destruct Hv as [Hw [H1 [H2 [_ [recs [rec [fp [Hr [Hin [Hi [Hfp Hloc]]]]]]]]]]].
    unfold check_fingerprint_in_db, search_fingerprint. unfold_monad.
    destruct name as [|c rest]; [ contradiction | ]. cbn [truthy_str].
    rewrite Hw. cbn. rewrite H1, H2. cbn. subst records. cbn.
    destruct (find (stored_at (finger_id f)) recs) as [found|] eqn:Ef.
    + eexists. reflexivity.
    + apply (find_none _ _ Ef) in Hin. unfold stored_at in Hin.
      rewrite Hfp, Hloc, String.eqb_refl in Hin. discriminate.
Qed.

Lemma capture_and_count_heads_advances : forall cam,
  (exists n, capture_and_count_heads cam = Ret n (camera_advance cam) /\ 0 <= n)
  \/ (exists e, capture_and_count_heads cam = Exc e (camera_advance cam)).
Proof.
  intro cam. unfold capture_and_count_heads. unfold_monad.
  destruct (cap_isOpened cam); cbn.
  - destruct (cap_read cam (cap_pos cam)); cbn;
      first [ left; eexists; split; [ reflexivity | lia ]
            | right; eexists; reflexivity ].
  - left. eexists. split; [ reflexivity | lia ].
Qed.

(** X26. A headcount never reports a negative count and never matches a
    negative scanned count.  Sampling takes one capture after the other
    from the camera: three when all succeed, fewer when one raises, and it
    neither opens nor releases the camera. *)
Theorem headcount_counts_are_not_negative :
  forall (cam : CameraManager) (n : Z),
    exists r cam',
      perform_headcount_check n (Some cam) = Ret r (Some cam')
      /\ 0 <= detected_count r
      /\ (success r = true -> 0 <= n /\ detected_count r = n)
      /\ (cap_pos cam < cap_pos cam' <= cap_pos cam + 3)%nat
      /\ (success r = true -> cap_pos cam' = (cap_pos cam + 3)%nat)
      /\ cap_isOpened cam' = cap_isOpened cam
      /\ cap_read cam' = cap_read cam.
Proof.
  intros cam n.
  assert (Hthree :
            (exists a b c,
                get_three_counts cam
                = Ret (a, b, c) (camera_advance (camera_advance (camera_advance cam)))
                /\ 0 <= a /\ 0 <= b /\ 0 <= c)
            \/ (exists e cam',
                   get_three_counts cam = Exc e cam'
                   /\ (cap_pos cam < cap_pos cam' <= cap_pos cam + 3)%nat
                   /\ cap_isOpened cam' = cap_isOpened cam
                   /\ cap_read cam' = cap_read cam)).
  { unfold get_three_counts.
    destruct (capture_and_count_heads_advances cam) as [[a [Ha Hap]]|[e He]].
    - rewrite (bind_Ret _ _ _ _ _ _ _ _ Ha).
      destruct (capture_and_count_heads_advances (camera_advance cam))
        as [[b [Hb Hbp]]|[e He]].
      + rewrite (bind_Ret _ _ _ _ _ _ _ _ Hb).
        destruct (capture_and_count_heads_advances (camera_advance (camera_advance cam)))
          as [[c [Hc Hcp]]|[e He]].
        * rewrite (bind_Ret _ _ _ _ _ _ _ _ Hc).
          left. exists a, b, c. repeat split; assumption.
        * rewrite (bind_Exc _ _ _ _ _ _ _ _ He).
          right. eexists. eexists. split; [ reflexivity | cbn; repeat split; lia ].
      + rewrite (bind_Exc _ _ _ _ _ _ _ _ He).
        right. eexists. eexists. split; [ reflexivity | cbn; repeat split; lia ].
    - rewrite (bind_Exc _ _ _ _ _ _ _ _ He).
      right. eexists. eexists. split; [ reflexivity | cbn; repeat split; lia ]. }
  destruct Hthree as [[a [b [c [Hrun [Ha [Hb Hc]]]]]]|[e [cam' [Hrun [Hpos [Ho Hr]]]]]].
  - eexists. eexists.
    split; [ apply (perform_headcount_check_sampled _ n _ _ Hrun) | ].
    cbn [detected_count success max3].
    split; [ lia | split; [ | split; [ cbn; lia | split; [ | split ] ] ] ];
      try reflexivity.
    + intro E. apply Z.eqb_eq in E. split; lia.
    + intros _. cbn. lia.
  - eexists. eexists.
    split; [ apply (perform_headcount_check_raised _ n _ _ Hrun) | ].
    cbn [detected_count success].
    split; [ lia | split; [ discriminate | split; [ exact Hpos | split; [ discriminate | ] ] ] ].
    split; assumption.
Qed.
